(** * Claude Usage Monitor: the background service worker

    A shallow embedding of the two versions of the service worker that the
    repository holds:

    - [src/background.js]      (icon drawn as a thermometer bar, static error icon)
    - [src/unnamed/part_000]   (icon drawn as a circular progress arc, generated
                                error icon)

    The two files share [getOrganizationId], [fetchAndUpdateUsage],
    [updateBadge] and [initializeMonitoring] up to logging and request
    headers; they differ in [generateIcon], in [updateBadgeError] and in the
    listener of [chrome.alarms.onAlarm].

    Conventions of the embedding.

    - JavaScript values are the values that [JSON.parse] produces, plus
      [undefined] (the result of reading an absent property).
    - A JavaScript number is modelled by an exact rational, plus [NaN].
      Comparisons of doubles are exact, so [<] and [>] are modelled exactly;
      products and quotients are the exact ones (the rounding of IEEE doubles
      and the infinities are left out).
    - An [async] function runs to completion before the next one starts (the
      worker is single-threaded and each cycle is one timer callback); it is a
      computation in the monad [M]: it reads and writes the extension storage,
      emits the calls it makes to the network and to [chrome.action] as a list
      of events, and either returns or throws an error with a message.
    - The calls to [chrome.storage.local] and to [chrome.action] always
      succeed. What can throw is [fetch], [response.json()], a property read
      on [null] or [undefined], the conversion to a primitive of a parsed
      object that has an own [toString] (in a template literal, under [<] and
      [*], in [new Date]), and the canvas on a size it rejects. The [console]
      output (off in src/background.js, where [DEBUG] is [false]) is not an
      event.
    - What the host computes and the file cannot see (number formatting and
      parsing, time formatting, canvas rasterisation) is a [Platform]. *)

From Stdlib Require Import ZArith QArith Qround Lqa Lia List.
From Stdlib Require Import String Ascii.
From stdpp Require Import gmap strings pretty.

Import ListNotations.
Set Warnings "-register-all".

Local Open Scope string_scope.
Local Open Scope list_scope.

(** ** Numbers *)

(** A JavaScript number. *)
Inductive Number : Type :=
  | NaN
  | Fin (q : Q).

Definition numZ (z : Z) : Number := Fin (inject_Z z).

(** [a < b]: false when either side is [NaN]. *)
Definition num_lt (a b : Number) : bool :=
  match a, b with
  | Fin x, Fin y => if Qlt_le_dec x y then true else false
  | _, _ => false
  end.

(** [a > b]. *)
Definition num_gt (a b : Number) : bool := num_lt b a.

Definition num_mul (a b : Number) : Number :=
  match a, b with
  | Fin x, Fin y => Fin (x * y)
  | _, _ => NaN
  end.

(** Division by a non-zero constant (the only divisions of the source are
    by the literals 2, 3, 8 and 100). *)
Definition num_div (a b : Number) : Number :=
  match a, b with
  | Fin x, Fin y => Fin (x / y)
  | _, _ => NaN
  end.

Definition num_add (a b : Number) : Number :=
  match a, b with
  | Fin x, Fin y => Fin (x + y)
  | _, _ => NaN
  end.

Definition num_sub (a b : Number) : Number :=
  match a, b with
  | Fin x, Fin y => Fin (x - y)
  | _, _ => NaN
  end.

Definition num_neg (a : Number) : Number :=
  match a with
  | Fin x => Fin (- x)
  | NaN => NaN
  end.

(** [Math.max(a, b)]: [NaN] as soon as one argument is [NaN]. *)
Definition Math_max (a b : Number) : Number :=
  match a, b with
  | Fin x, Fin y => Fin (if Qlt_le_dec x y then y else x)
  | _, _ => NaN
  end.

(** [Math.PI] is the double nearest to pi; its exact value is
    884279719003555 / 2^48. *)
Definition Math_PI : Number := Fin (884279719003555 # 281474976710656).

(** ** Values *)

Inductive Value : Type :=
  | VUndefined
  | VNull
  | VBool (b : bool)
  | VNum (n : Number)
  | VStr (s : string)
  | VArr (items : list Value)
  | VObj (fields : list (string * Value)).

(** ToBoolean: [undefined], [null], [false], [0], [NaN] and the empty string
    are falsy; everything else, arrays and objects included, is truthy. *)
Definition truthy (v : Value) : bool :=
  match v with
  | VUndefined | VNull => false
  | VBool b => b
  | VNum NaN => false
  | VNum (Fin q) => negb (Qeq_bool q 0)
  | VStr s => negb (String.eqb s "")
  | VArr _ | VObj _ => true
  end.

(** [a || b] *)
Definition js_or (a b : Value) : Value := if truthy a then a else b.

(** The own property [k] of a parsed object (the first entry of the list;
    [JSON.parse] has already resolved repeated keys). *)
Fixpoint own (k : string) (fields : list (string * Value)) : Value :=
  match fields with
  | [] => VUndefined
  | (k', v) :: rest => if String.eqb k k' then v else own k rest
  end.

(** The keys the worker reads: a named property, or the index of [?.[0]]. *)
Inductive Key : Type :=
  | Name (s : string)
  | Index (i : nat).

Definition digit_string (i : nat) : string :=
  String (ascii_of_nat (48 + i)) EmptyString.

(** Property read on a value that is neither [null] nor [undefined]. The
    names the worker reads ([five_hour], [utilization], [resets_at],
    [account], [memberships], [organization], [uuid]) are not properties of
    any prototype, so on arrays, strings, numbers and booleans they read as
    [undefined]. The only index read is 0. *)
Definition read (v : Value) (k : Key) : Value :=
  match v, k with
  | VObj fields, Name s => own s fields
  | VObj fields, Index i => own (digit_string i) fields
  | VArr items, Index i => nth i items VUndefined
  | VStr s, Index i =>
      match String.get i s with
      | Some c => VStr (String c EmptyString)
      | None => VUndefined
      end
  | _, _ => VUndefined
  end.

Definition nullish (v : Value) : bool :=
  match v with
  | VUndefined | VNull => true
  | _ => false
  end.

(** [v?.k] *)
Definition opt_chain (v : Value) (k : Key) : Value :=
  if nullish v then VUndefined else read v k.

(** ToPrimitive completes on [v]. It throws a TypeError on a parsed object
    with an own property [toString]: that property is not callable, and the
    inherited [valueOf] returns the object itself. On any other parsed object
    the inherited [toString] answers. An array converts through [join], which
    converts its items ([null] and [undefined] items are skipped). *)
Fixpoint coercible (v : Value) : bool :=
  match v with
  | VArr items =>
      (fix all (l : list Value) : bool :=
         match l with
         | [] => true
         | x :: rest => coercible x && all rest
         end) items
  | VObj fields =>
      negb (existsb (fun kv : string * Value => String.eqb kv.1 "toString") fields)
  | _ => true
  end.

(** ** The host platform *)

(** A drawing command as the 2D context receives it, with the styles in
    force when it is issued. *)
Inductive PathOp : Type :=
  | Arc (x y radius startAngle endAngle : Number).

Inductive DrawOp : Type :=
  | ClearRect (x y w h : Number)
  | FillRect (style : string) (x y w h : Number)
  | Stroke (style : string) (width : Number) (cap : string) (path : list PathOp)
  | Fill (style : string) (path : list PathOp)
  | FillText (style font align baseline text : string) (x y : Number).

(** The result of [getImageData]: RGBA bytes, row by row. *)
Record ImageData : Type := mkImageData {
  img_width : Number;
  img_height : Number;
  img_data : list Byte.byte
}.

Class Platform : Type := {
  (** Number::toString, as a template literal applies it. *)
  NumberToString : Number -> string;
  (** StringToNumber, as [<] and [*] apply it to a string operand. *)
  StringToNumber : string -> Number;
  (** [new Date(v).toLocaleTimeString('en-US',
        { hour: 'numeric', minute: '2-digit', hour12: true })] *)
  toLocaleTimeString : Value -> string;
  (** The pixels of the rectangle (sx, sy, sw, sh) of a canvas of the given
      width and height after the drawing commands, oldest first. *)
  rasterize : Number -> Number -> list DrawOp ->
              Number -> Number -> Number -> Number -> list Byte.byte
}.

Section Worker.

Context `{Platform}.

(** The string ToString gives on a value on which ToPrimitive completes
    ([coercible]); where the source converts a value, the embedding checks
    [coercible] first and throws otherwise (see [template]). An array joins
    its items with commas, [null] and [undefined] items giving the empty
    string; a parsed object gives the fixed string of
    [Object.prototype.toString]. *)
Fixpoint ToString (v : Value) : string :=
  match v with
  | VUndefined => "undefined"
  | VNull => "null"
  | VBool true => "true"
  | VBool false => "false"
  | VNum n => NumberToString n
  | VStr s => s
  | VArr items =>
      (fix join (l : list Value) : string :=
         match l with
         | [] => ""
         | x :: rest =>
             (if nullish x then "" else ToString x) +:+
             match rest with
             | [] => ""
             | _ :: _ => "," +:+ join rest
             end
         end) items
  | VObj _ => "[object Object]"
  end.

(** The number ToNumber gives on a value on which ToPrimitive completes
    ([coercible]), as the operators [<] and [*] apply it to an operand that is
    compared with, or multiplied by, a number; see [to_number]. Arrays and
    objects go through their string. *)
Definition ToNumber (v : Value) : Number :=
  match v with
  | VUndefined => NaN
  | VNull => numZ 0
  | VBool true => numZ 1
  | VBool false => numZ 0
  | VNum n => n
  | VStr s => StringToNumber s
  | VArr _ | VObj _ => StringToNumber (ToString v)
  end.

(** ** The 2D context of an [OffscreenCanvas] *)

Record Context2D : Type := mkContext2D {
  canvas_width : Number;
  canvas_height : Number;
  ctx_fillStyle : string;
  ctx_strokeStyle : string;
  ctx_lineWidth : Number;
  ctx_lineCap : string;
  ctx_font : string;
  ctx_textAlign : string;
  ctx_textBaseline : string;
  ctx_path : list PathOp;
  (** the drawing commands issued so far, oldest first *)
  ctx_drawn : list DrawOp
}.

(** [new OffscreenCanvas(w, h).getContext('2d')], with the default styles of
    a fresh context. *)
Definition getContext2d (w h : Number) : Context2D :=
  {| canvas_width := w; canvas_height := h;
     ctx_fillStyle := "#000000"; ctx_strokeStyle := "#000000";
     ctx_lineWidth := numZ 1; ctx_lineCap := "butt";
     ctx_font := "10px sans-serif"; ctx_textAlign := "start";
     ctx_textBaseline := "alphabetic";
     ctx_path := []; ctx_drawn := [] |}.

Definition set_fillStyle (s : string) (c : Context2D) : Context2D :=
  mkContext2D (canvas_width c) (canvas_height c) s (ctx_strokeStyle c)
    (ctx_lineWidth c) (ctx_lineCap c) (ctx_font c) (ctx_textAlign c)
    (ctx_textBaseline c) (ctx_path c) (ctx_drawn c).

Definition set_strokeStyle (s : string) (c : Context2D) : Context2D :=
  mkContext2D (canvas_width c) (canvas_height c) (ctx_fillStyle c) s
    (ctx_lineWidth c) (ctx_lineCap c) (ctx_font c) (ctx_textAlign c)
    (ctx_textBaseline c) (ctx_path c) (ctx_drawn c).

Definition set_lineWidth (n : Number) (c : Context2D) : Context2D :=
  mkContext2D (canvas_width c) (canvas_height c) (ctx_fillStyle c)
    (ctx_strokeStyle c) n (ctx_lineCap c) (ctx_font c) (ctx_textAlign c)
    (ctx_textBaseline c) (ctx_path c) (ctx_drawn c).

Definition set_lineCap (s : string) (c : Context2D) : Context2D :=
  mkContext2D (canvas_width c) (canvas_height c) (ctx_fillStyle c)
    (ctx_strokeStyle c) (ctx_lineWidth c) s (ctx_font c) (ctx_textAlign c)
    (ctx_textBaseline c) (ctx_path c) (ctx_drawn c).

Definition set_font (s : string) (c : Context2D) : Context2D :=
  mkContext2D (canvas_width c) (canvas_height c) (ctx_fillStyle c)
    (ctx_strokeStyle c) (ctx_lineWidth c) (ctx_lineCap c) s (ctx_textAlign c)
    (ctx_textBaseline c) (ctx_path c) (ctx_drawn c).

Definition set_textAlign (s : string) (c : Context2D) : Context2D :=
  mkContext2D (canvas_width c) (canvas_height c) (ctx_fillStyle c)
    (ctx_strokeStyle c) (ctx_lineWidth c) (ctx_lineCap c) (ctx_font c) s
    (ctx_textBaseline c) (ctx_path c) (ctx_drawn c).

Definition set_textBaseline (s : string) (c : Context2D) : Context2D :=
  mkContext2D (canvas_width c) (canvas_height c) (ctx_fillStyle c)
    (ctx_strokeStyle c) (ctx_lineWidth c) (ctx_lineCap c) (ctx_font c)
    (ctx_textAlign c) s (ctx_path c) (ctx_drawn c).

Definition set_path (p : list PathOp) (c : Context2D) : Context2D :=
  mkContext2D (canvas_width c) (canvas_height c) (ctx_fillStyle c)
    (ctx_strokeStyle c) (ctx_lineWidth c) (ctx_lineCap c) (ctx_font c)
    (ctx_textAlign c) (ctx_textBaseline c) p (ctx_drawn c).

(** Every drawing call appends one command, with the styles in force. *)
Definition draw (op : DrawOp) (c : Context2D) : Context2D :=
  mkContext2D (canvas_width c) (canvas_height c) (ctx_fillStyle c)
    (ctx_strokeStyle c) (ctx_lineWidth c) (ctx_lineCap c) (ctx_font c)
    (ctx_textAlign c) (ctx_textBaseline c) (ctx_path c) (ctx_drawn c ++ [op]).

Definition clearRect (x y w h : Number) (c : Context2D) : Context2D :=
  draw (ClearRect x y w h) c.

Definition fillRect (x y w h : Number) (c : Context2D) : Context2D :=
  draw (FillRect (ctx_fillStyle c) x y w h) c.

Definition beginPath (c : Context2D) : Context2D := set_path [] c.

Definition arc (x y r a0 a1 : Number) (c : Context2D) : Context2D :=
  set_path (ctx_path c ++ [Arc x y r a0 a1]) c.

Definition stroke (c : Context2D) : Context2D :=
  draw (Stroke (ctx_strokeStyle c) (ctx_lineWidth c) (ctx_lineCap c) (ctx_path c)) c.

Definition fill (c : Context2D) : Context2D :=
  draw (Fill (ctx_fillStyle c) (ctx_path c)) c.

Definition fillText (text : string) (x y : Number) (c : Context2D) : Context2D :=
  draw (FillText (ctx_fillStyle c) (ctx_font c) (ctx_textAlign c)
          (ctx_textBaseline c) text x y) c.

Definition getImageData (c : Context2D) (sx sy sw sh : Number) : ImageData :=
  {| img_width := sw; img_height := sh;
     img_data := rasterize (canvas_width c) (canvas_height c) (ctx_drawn c)
                   sx sy sw sh |}.

(** ** Effects *)

(** How a call completes: a value, or a thrown error. Only [error.message]
    is ever read from an error, so an error is its message. *)
Inductive Completion (A : Type) : Type :=
  | Normal (a : A)
  | Throw (message : string).
Arguments Normal {A} a.
Arguments Throw {A} message.

(** What [response.json()] gives: the parsed body, or a rejection. *)
Inductive Body : Type :=
  | JsonBody (data : Value)
  | BadBody (message : string).

(** What [fetch] gives: a rejection (no response), or a response with an
    HTTP status and a body. *)
Inductive FetchOutcome : Type :=
  | Rejected (message : string)
  | Responded (status : Z) (body : Body).

Record Response : Type := mkResponse {
  status : Z;
  body : Body
}.

(** [response.ok]: the status is in the range 200-299. *)
Definition ok (r : Response) : bool :=
  (200 <=? status r)%Z && (status r <=? 299)%Z.

(** The argument of [chrome.action.setIcon]. *)
Inductive Icon : Type :=
  | IconPath (path : string)
  | IconImageData (i16 i32 i48 : ImageData).

(** The calls the worker makes to the outside, in the order it makes them. *)
Inductive Event : Type :=
  | StorageGet (key : string)
  | StorageSet (key : string) (v : Value)
  | Fetch (url : string) (outcome : FetchOutcome)
  | SetIcon (icon : Icon)
  | SetBadgeText (text : string)
  | SetBadgeTextColor (color : string)
  | SetBadgeBackgroundColor (rgba : list Z)
  | SetTitle (title : string).

(** The network of one cycle: what each URL answers. *)
Definition Net : Type := string -> FetchOutcome.

(** A computation of the worker: from the extension storage
    ([chrome.storage.local]) to a completion, the storage afterwards and the
    events emitted. *)
Definition M (A : Type) : Type :=
  gmap string Value -> Completion A * gmap string Value * list Event.

Definition ret {A} (a : A) : M A := fun st => (Normal a, st, []).

Definition throw {A} (message : string) : M A := fun st => (Throw message, st, []).

Definition bind {A B} (m : M A) (k : A -> M B) : M B :=
  fun st =>
    match m st with
    | (Normal a, st1, ev1) =>
        match k a st1 with
        | (r, st2, ev2) => (r, st2, ev1 ++ ev2)
        end
    | (Throw e, st1, ev1) => (Throw e, st1, ev1)
    end.

(** [try { m } catch (error) { handler(error.message) }] *)
Definition try_catch {A} (m : M A) (handler : string -> M A) : M A :=
  fun st =>
    match m st with
    | (Normal a, st1, ev1) => (Normal a, st1, ev1)
    | (Throw e, st1, ev1) =>
        match handler e st1 with
        | (r, st2, ev2) => (r, st2, ev1 ++ ev2)
        end
    end.

Definition emit (e : Event) : M unit := fun st => (Normal tt, st, [e]).

Notation "x <- m ;; k" := (bind m (fun x => k))
  (at level 100, m at next level, right associativity).
Notation "m ;;; k" := (bind m (fun _ => k))
  (at level 100, right associativity).

Definition completion {A} (r : Completion A * gmap string Value * list Event) :
  Completion A := r.1.1.
Definition storage_after {A} (r : Completion A * gmap string Value * list Event) :
  gmap string Value := r.1.2.
Definition events {A} (r : Completion A * gmap string Value * list Event) :
  list Event := r.2.

(** [await chrome.storage.local.get(key)]: an object holding the entry, or
    an empty object. *)
Definition storage_local_get (key : string) : M Value :=
  fun st =>
    (Normal (match st !! key with
             | Some v => VObj [(key, v)]
             | None => VObj []
             end), st, [StorageGet key]).

(** [await chrome.storage.local.set({ key: v })] *)
Definition storage_local_set (key : string) (v : Value) : M unit :=
  fun st => (Normal tt, <[key := v]> st, [StorageSet key v]).

(** [await fetch(url, { credentials: 'include', ... })] *)
Definition fetch (net : Net) (url : string) : M Response :=
  match net url with
  | Rejected message =>
      emit (Fetch url (Rejected message)) ;;; throw message
  | Responded st b =>
      emit (Fetch url (Responded st b)) ;;; ret (mkResponse st b)
  end.

(** [await response.json()] *)
Definition json (r : Response) : M Value :=
  match body r with
  | JsonBody data => ret data
  | BadBody message => throw message
  end.

(** [v.k]: a TypeError on [null] and [undefined]. *)
Definition member (v : Value) (k : string) : M Value :=
  if nullish v
  then throw ("Cannot read properties of " +:+ ToString v +:+
              " (reading '" +:+ k +:+ "')")
  else ret (read v (Name k)).

Definition nl : string := String (ascii_of_nat 10) EmptyString.

(** The message of the TypeError of ToPrimitive. *)
Definition cannot_convert : string := "Cannot convert object to primitive value".

(** [`${v}`] *)
Definition template (v : Value) : M string :=
  if coercible v then ret (ToString v) else throw cannot_convert.

(** The conversion of the operand [v] of [<] or [*]. *)
Definition to_number (v : Value) : M Number :=
  if coercible v then ret (ToNumber v) else throw cannot_convert.

(** [new Date(v).toLocaleTimeString('en-US', { ... })]: the constructor
    converts [v] to a primitive; formatting does not throw (an invalid date
    prints as such). *)
Definition Date_toLocaleTimeString (v : Value) : M string :=
  if coercible v then ret (toLocaleTimeString v) else throw cannot_convert.

(** ** The two versions of the worker *)

Inductive SourceFile : Type :=
  | background_js   (* src/background.js *)
  | part_000.       (* src/unnamed/part_000 *)

(** *** [generateIcon] of src/background.js: the thermometer bar *)

(** The locals of [generateIcon], each as a function of the arguments it
    depends on. [size] is one of the integer icon sizes. *)

Definition fillColor (percentage : Value) : string :=
  if num_lt (ToNumber percentage) (numZ 50) then "#10b981"
  else if num_lt (ToNumber percentage) (numZ 80) then "#f59e0b"
  else "#ef4444".

Definition claudeOrange : string := "#D97706".

Definition padding (size : Z) : Z := if (size <=? 16)%Z then 1%Z else 2%Z.
Definition borderWidth (size : Z) : Z := if (size <=? 16)%Z then 1%Z else 2%Z.

Definition frameX (size : Z) : Z := padding size.
Definition frameY (size : Z) : Z := padding size.
Definition frameWidth (size : Z) : Z := (size - padding size * 2)%Z.
(** [Math.floor(size * 0.4)] *)
Definition frameHeight (size : Z) : Z := Qfloor (inject_Z size * (4 # 10)).

Definition barX (size : Z) : Z := (frameX size + borderWidth size)%Z.
Definition barY (size : Z) : Z := (frameY size + borderWidth size)%Z.
Definition barMaxWidth (size : Z) : Z := (frameWidth size - borderWidth size * 2)%Z.
Definition barHeight (size : Z) : Z := (frameHeight size - borderWidth size * 2)%Z.

(** [(barMaxWidth * percentage) / 100], before [Math.max] *)
Definition rawBarWidth (percentage : Value) (size : Z) : Number :=
  num_div (num_mul (numZ (barMaxWidth size)) (ToNumber percentage)) (numZ 100).

Definition barWidth (percentage : Value) (size : Z) : Number :=
  Math_max (numZ 1) (rawBarWidth percentage size).

(** The context when [generateIcon] reaches its [return]. *)
Definition thermometer (percentage : Value) (size : Z) : Context2D :=
  let ctx := getContext2d (numZ size) (numZ size) in
  (* Draw Claude orange frame *)
  let ctx := set_fillStyle claudeOrange ctx in
  let ctx := fillRect (numZ (frameX size)) (numZ (frameY size))
               (numZ (frameWidth size)) (numZ (borderWidth size)) ctx in
  let ctx := fillRect (numZ (frameX size)) (numZ (frameY size))
               (numZ (borderWidth size)) (numZ (frameHeight size)) ctx in
  let ctx := fillRect (numZ (frameX size + frameWidth size - borderWidth size))
               (numZ (frameY size))
               (numZ (borderWidth size)) (numZ (frameHeight size)) ctx in
  let ctx := fillRect (numZ (frameX size))
               (numZ (frameY size + frameHeight size - borderWidth size))
               (numZ (frameWidth size)) (numZ (borderWidth size)) ctx in
  (* Draw inner thermometer bar fill *)
  if num_gt (numZ (barHeight size)) (numZ 0) &&
     num_gt (barWidth percentage size) (numZ 0)
  then
    let ctx := set_fillStyle (fillColor percentage) ctx in
    fillRect (numZ (barX size)) (numZ (barY size))
      (barWidth percentage size) (numZ (barHeight size)) ctx
  else ctx.

(** *** [generateIcon] of src/unnamed/part_000: the circular progress arc *)

Definition progressColor (percentage : Value) : string :=
  if num_lt (ToNumber percentage) (numZ 50) then "#10b981" (* Green *)
  else if num_lt (ToNumber percentage) (numZ 80) then "#f59e0b" (* Yellow *)
  else "#ef4444" (* Red *).

Definition centerX (size : Z) : Number := num_div (numZ size) (numZ 2).
Definition centerY (size : Z) : Number := num_div (numZ size) (numZ 2).
Definition radius (size : Z) : Number := num_sub (num_div (numZ size) (numZ 2)) (numZ 2).
Definition lineWidth (size : Z) : Number := Math_max (numZ 2) (num_div (numZ size) (numZ 8)).

(** [-Math.PI / 2]: start at top *)
Definition startAngle : Number := num_div (num_neg Math_PI) (numZ 2).

(** [startAngle + (percentage / 100) * 2 * Math.PI] *)
Definition endAngle (percentage : Value) : Number :=
  num_add startAngle
    (num_mul (num_mul (num_div (ToNumber percentage) (numZ 100)) (numZ 2)) Math_PI).

(** [2 * Math.PI], the end of the background circle *)
Definition fullCircle : Number := num_mul (numZ 2) Math_PI.

(** The context when [generateIcon] reaches its [return]. *)
Definition circular (percentage : Value) (size : Z) : Context2D :=
  let ctx := getContext2d (numZ size) (numZ size) in
  (* Clear canvas *)
  let ctx := clearRect (numZ 0) (numZ 0) (numZ size) (numZ size) ctx in
  (* Draw background circle *)
  let ctx := beginPath ctx in
  let ctx := arc (centerX size) (centerY size) (radius size) (numZ 0) fullCircle ctx in
  let ctx := set_strokeStyle "#e5e7eb" ctx in
  let ctx := set_lineWidth (lineWidth size) ctx in
  let ctx := stroke ctx in
  (* Draw progress arc *)
  let ctx := beginPath ctx in
  let ctx := arc (centerX size) (centerY size) (radius size)
               startAngle (endAngle percentage) ctx in
  let ctx := set_strokeStyle (progressColor percentage) ctx in
  let ctx := set_lineWidth (lineWidth size) ctx in
  let ctx := set_lineCap "round" ctx in
  let ctx := stroke ctx in
  (* Draw percentage text (only for larger sizes) *)
  if (32 <=? size)%Z
  then
    let ctx := set_fillStyle "#1f2937" ctx in
    let ctx := set_font ("bold " +:+ NumberToString (num_div (numZ size) (numZ 3))
                          +:+ "px Arial") ctx in
    let ctx := set_textAlign "center" ctx in
    let ctx := set_textBaseline "middle" ctx in
    fillText (ToString percentage +:+ "%") (centerX size) (centerY size) ctx
  else ctx.

(** The errors of the canvas, by the name of the exception (the text of the
    message is the browser's; the worker renders the sizes 16, 32 and 48 only
    and never sees them). The upper limit that a browser puts on the size of
    a canvas is not modelled. *)
Definition canvas_size_error : string := "TypeError: OffscreenCanvas size".
Definition negative_radius_error : string := "IndexSizeError: arc radius".
Definition empty_source_error : string := "IndexSizeError: getImageData size".

(** [generateIcon(percentage, size)]: the pixels of the whole canvas. The
    constructor of the canvas rejects a negative size; the first use of
    [percentage], in [percentage < 50], converts it and throws when it cannot
    be converted, before anything is drawn; [arc] rejects a negative radius
    ([size / 2 - 2]); [getImageData] rejects an empty rectangle. *)
Definition generateIcon (f : SourceFile) (percentage : Value) (size : Z) :
  M ImageData :=
  if (size <? 0)%Z then throw canvas_size_error
  else
    _ <- to_number percentage ;;
    match f with
    | background_js =>
        if (size =? 0)%Z then throw empty_source_error
        else ret (getImageData (thermometer percentage size)
                    (numZ 0) (numZ 0) (numZ size) (numZ size))
    | part_000 =>
        if (size <? 4)%Z then throw negative_radius_error
        else ret (getImageData (circular percentage size)
                    (numZ 0) (numZ 0) (numZ size) (numZ size))
    end.

(** *** [updateBadgeError] *)

(** The error icon that src/unnamed/part_000 draws: a gray disc with a
    white exclamation mark, 48 pixels wide. *)
Definition errorIcon : ImageData :=
  let size := 48%Z in
  let ctx := getContext2d (numZ size) (numZ size) in
  let centerX := num_div (numZ size) (numZ 2) in
  let centerY := num_div (numZ size) (numZ 2) in
  let radius := num_sub (num_div (numZ size) (numZ 2)) (numZ 2) in
  (* Draw gray circle *)
  let ctx := beginPath ctx in
  let ctx := arc centerX centerY radius (numZ 0) (num_mul (numZ 2) Math_PI) ctx in
  let ctx := set_fillStyle "#6b7280" ctx in
  let ctx := fill ctx in
  (* Draw exclamation mark *)
  let ctx := set_fillStyle "#ffffff" ctx in
  let ctx := set_font ("bold " +:+ NumberToString (num_div (numZ size) (numZ 2))
                        +:+ "px Arial") ctx in
  let ctx := set_textAlign "center" ctx in
  let ctx := set_textBaseline "middle" ctx in
  let ctx := fillText "!" centerX centerY ctx in
  getImageData ctx (numZ 0) (numZ 0) (numZ size) (numZ size).

(** The icon of the error state. *)
Definition error_icon (f : SourceFile) : Icon :=
  match f with
  | background_js => IconPath "error-icon.png"
  | part_000 => IconImageData errorIcon errorIcon errorIcon
  end.

(** The fixed text that precedes the message in the tooltip. *)
Definition error_title (f : SourceFile) : string :=
  match f with
  | background_js => "Make sure you are logged in to Claude.ai!" +:+ nl +:+ "Error: "
  | part_000 => "Claude Usage Monitor" +:+ nl +:+ "Error: "
  end.

Definition updateBadgeError (f : SourceFile) (message : string) : M unit :=
  emit (SetIcon (error_icon f)) ;;;
  emit (SetBadgeText "") ;;;
  emit (SetTitle (error_title f +:+ message)).

(** *** [updateBadge] *)

Definition updateBadge (f : SourceFile) (data : Value) : M unit :=
  fiveHour <- member data "five_hour" ;;
  if negb (truthy fiveHour) then
    updateBadgeError f "No data"
  else
    let percentage := js_or (read fiveHour (Name "utilization")) (VNum (numZ 0)) in
    let resetsAt := read fiveHour (Name "resets_at") in
    (* Generate dynamic icons at multiple sizes *)
    icon16 <- generateIcon f percentage 16 ;;
    icon32 <- generateIcon f percentage 32 ;;
    icon48 <- generateIcon f percentage 48 ;;
    emit (SetIcon (IconImageData icon16 icon32 icon48)) ;;;
    text <- template percentage ;;
    emit (SetBadgeText (text +:+ "%")) ;;;
    emit (SetBadgeTextColor "#D97706") ;;;
    emit (SetBadgeBackgroundColor [0; 0; 0; 0]%Z) ;;;
    (* Format reset time for tooltip *)
    resetTimeStr <-
      (if truthy resetsAt then Date_toLocaleTimeString resetsAt
       else ret "Unknown") ;;
    used <- template percentage ;;
    emit (SetTitle ("Claude Usage Monitor" +:+ nl +:+ used +:+
                    "% used" +:+ nl +:+ "Resets at " +:+ resetTimeStr)).

(** *** [getOrganizationId] *)

Definition bootstrap_url : string := "https://claude.ai/api/bootstrap".

(** [data?.account?.memberships?.[0]?.organization?.uuid] *)
Definition bootstrap_orgId (data : Value) : Value :=
  opt_chain
    (opt_chain
       (opt_chain
          (opt_chain (opt_chain data (Name "account")) (Name "memberships"))
          (Index 0))
       (Name "organization"))
    (Name "uuid").

Definition getOrganizationId (net : Net) : M Value :=
  try_catch
    ((* Check cache first *)
     cached <- storage_local_get "orgId" ;;
     if truthy (read cached (Name "orgId")) then
       ret (read cached (Name "orgId"))
     else
       (* Fetch from bootstrap API *)
       response <- fetch net bootstrap_url ;;
       if negb (ok response) then
         throw ("Bootstrap failed: HTTP " +:+ NumberToString (numZ (status response)))
       else
         data <- json response ;;
         (* Extract org ID from response *)
         let orgId := bootstrap_orgId data in
         if negb (truthy orgId) then
           throw "Org ID not found in bootstrap response"
         else
           (* Cache it *)
           storage_local_set "orgId" orgId ;;;
           ret orgId)
    (fun error => ret VNull).

(** *** [fetchAndUpdateUsage] *)

(** The usage URL for an identifier that the template literal can convert
    ([coercible]); [fetchAndUpdateUsage] throws on the others before it
    fetches. *)
Definition usage_url (orgId : Value) : string :=
  "https://claude.ai/api/organizations/" +:+ ToString orgId +:+ "/usage".

Definition fetchAndUpdateUsage (f : SourceFile) (net : Net) : M unit :=
  try_catch
    ((* Get org ID (cached or fetch fresh) *)
     orgId <- getOrganizationId net ;;
     if negb (truthy orgId) then
       updateBadgeError f "No org ID"
     else
       (* Fetch usage data *)
       id <- template orgId ;;
       response <- fetch net ("https://claude.ai/api/organizations/" +:+ id +:+
                              "/usage") ;;
       if negb (ok response) then
         throw ("HTTP " +:+ NumberToString (numZ (status response)))
       else
         data <- json response ;;
         (* Update badge with data *)
         updateBadge f data)
    (fun error => updateBadgeError f error).

(** ** Observations used by the statements *)

(** The cached identifier as [getOrganizationId] reads it:
    [(await chrome.storage.local.get('orgId')).orgId]. *)
Definition cached_orgId (st : gmap string Value) : Value :=
  match st !! "orgId" with
  | Some v => v
  | None => VUndefined
  end.

Definition is_storage_set (e : Event) : bool :=
  match e with
  | StorageSet _ _ => true
  | _ => false
  end.

Definition is_fetch_of (url : string) (e : Event) : bool :=
  match e with
  | Fetch u _ => String.eqb u url
  | _ => false
  end.

(** The pixels [generateIcon] returns. *)
Definition icon_pixels (f : SourceFile) (percentage : Value) (size : Z) : ImageData :=
  getImageData
    match f with
    | background_js => thermometer percentage size
    | part_000 => circular percentage size
    end (numZ 0) (numZ 0) (numZ size) (numZ size).

(** [fiveHour.utilization || 0] *)
Definition usage_percentage (fiveHour : Value) : Value :=
  js_or (read fiveHour (Name "utilization")) (VNum (numZ 0)).

(** The events of the success path of [updateBadge], for a truthy
    [five_hour] entry. *)
Definition success_state (f : SourceFile) (fiveHour : Value) : list Event :=
  let percentage := usage_percentage fiveHour in
  let resetsAt := read fiveHour (Name "resets_at") in
  [SetIcon (IconImageData (icon_pixels f percentage 16)
              (icon_pixels f percentage 32) (icon_pixels f percentage 48));
   SetBadgeText (ToString percentage +:+ "%");
   SetBadgeTextColor "#D97706";
   SetBadgeBackgroundColor [0; 0; 0; 0]%Z;
   SetTitle ("Claude Usage Monitor" +:+ nl +:+ ToString percentage +:+
             "% used" +:+ nl +:+ "Resets at " +:+
             (if truthy resetsAt then toLocaleTimeString resetsAt else "Unknown"))].

(** The message of the TypeError that [v.k] throws on [null] and
    [undefined]. *)
Definition type_error (v : Value) (k : string) : string :=
  "Cannot read properties of " +:+ ToString v +:+ " (reading '" +:+ k +:+ "')".

(** What the bootstrap answer makes of a call that misses the cache. *)
Definition bootstrap_result (net : Net) (st : gmap string Value) :
  Completion Value * gmap string Value * list Event :=
  let fetched := Fetch bootstrap_url (net bootstrap_url) in
  match net bootstrap_url with
  | Rejected _ => (Normal VNull, st, [StorageGet "orgId"; fetched])
  | Responded s b =>
      if ok (mkResponse s b) then
        match b with
        | JsonBody data =>
            if truthy (bootstrap_orgId data)
            then (Normal (bootstrap_orgId data),
                  <["orgId" := bootstrap_orgId data]> st,
                  [StorageGet "orgId"; fetched;
                   StorageSet "orgId" (bootstrap_orgId data)])
            else (Normal VNull, st, [StorageGet "orgId"; fetched])
        | BadBody _ => (Normal VNull, st, [StorageGet "orgId"; fetched])
        end
      else (Normal VNull, st, [StorageGet "orgId"; fetched])
  end.

(** A call to [chrome.action]: [setIcon], [setBadgeText],
    [setBadgeTextColor], [setBadgeBackgroundColor] or [setTitle]. *)
Definition is_action (e : Event) : bool :=
  match e with
  | SetIcon _ | SetBadgeText _ | SetBadgeTextColor _
  | SetBadgeBackgroundColor _ | SetTitle _ => true
  | _ => false
  end.

(** The calls to [chrome.action] among the events. *)
Definition actions (ev : list Event) : list Event := List.filter is_action ev.

(** The events of [updateBadgeError(message)]. *)
Definition error_state (f : SourceFile) (message : string) : list Event :=
  [SetIcon (error_icon f); SetBadgeText ""; SetTitle (error_title f +:+ message)].

(** A fetch of this cycle was answered with a status outside 200-299. *)
Definition non_success (e : Event) : bool :=
  match e with
  | Fetch _ (Responded st _) => negb ((200 <=? st)%Z && (st <=? 299)%Z)
  | _ => false
  end.

(** What [updateBadge] emits inside the [try] of the cycle, with what the
    [catch] adds when it throws: the error state alone when the document is
    [null] or the percentage cannot be converted (nothing is rendered yet),
    the first four calls of the success path and then the error state when
    [new Date(resetsAt)] throws. *)
Definition badge_events (f : SourceFile) (data : Value) : list Event :=
  if nullish data then error_state f (type_error data "five_hour")
  else if truthy (read data (Name "five_hour")) then
    if coercible (usage_percentage (read data (Name "five_hour"))) then
      if truthy (read (read data (Name "five_hour")) (Name "resets_at")) &&
         negb (coercible (read (read data (Name "five_hour")) (Name "resets_at")))
      then firstn 4 (success_state f (read data (Name "five_hour"))) ++
           error_state f cannot_convert
      else success_state f (read data (Name "five_hour"))
    else error_state f cannot_convert
  else error_state f "No data".

(** What a cycle emits once the identifier is resolved to [orgId]. *)
Definition usage_events (f : SourceFile) (net : Net) (orgId : Value) : list Event :=
  if truthy orgId then
    if coercible orgId then
      Fetch (usage_url orgId) (net (usage_url orgId)) ::
      match net (usage_url orgId) with
      | Rejected message => error_state f message
      | Responded s b =>
          if ok (mkResponse s b) then
            match b with
            | JsonBody data => badge_events f data
            | BadBody message => error_state f message
            end
          else error_state f ("HTTP " +:+ NumberToString (numZ s))
      end
    else error_state f cannot_convert
  else error_state f "No org ID".

(** The cycles of the worker, one after the other, each with the network
    it finds: the storage at the end and all the events. *)
Fixpoint run_cycles (f : SourceFile) (nets : list Net) (st : gmap string Value) :
  gmap string Value * list Event :=
  match nets with
  | [] => (st, [])
  | net :: rest =>
      let r := fetchAndUpdateUsage f net st in
      let r' := run_cycles f rest (storage_after r) in
      (r'.1, events r ++ r'.2)
  end.

(** The four rectangles of the frame, the bar and the progress arc, as the
    drawing commands that [generateIcon] issues. *)
Definition frame_commands (size : Z) : list DrawOp :=
  [FillRect claudeOrange (numZ (frameX size)) (numZ (frameY size))
     (numZ (frameWidth size)) (numZ (borderWidth size));
   FillRect claudeOrange (numZ (frameX size)) (numZ (frameY size))
     (numZ (borderWidth size)) (numZ (frameHeight size));
   FillRect claudeOrange
     (numZ (frameX size + frameWidth size - borderWidth size)) (numZ (frameY size))
     (numZ (borderWidth size)) (numZ (frameHeight size));
   FillRect claudeOrange (numZ (frameX size))
     (numZ (frameY size + frameHeight size - borderWidth size))
     (numZ (frameWidth size)) (numZ (borderWidth size))].

Definition bar_command (percentage : Value) (size : Z) : DrawOp :=
  FillRect (fillColor percentage) (numZ (barX size)) (numZ (barY size))
    (barWidth percentage size) (numZ (barHeight size)).

Definition progress_command (percentage : Value) (size : Z) : DrawOp :=
  Stroke (progressColor percentage) (lineWidth size) "round"
    [Arc (centerX size) (centerY size) (radius size) startAngle (endAngle percentage)].

(** The drawing commands of the error icon of src/unnamed/part_000: a gray
    disc and a white exclamation mark. *)
Definition errorIcon_commands : list DrawOp :=
  [Fill "#6b7280"
     [Arc (num_div (numZ 48) (numZ 2)) (num_div (numZ 48) (numZ 2))
        (num_sub (num_div (numZ 48) (numZ 2)) (numZ 2))
        (numZ 0) (num_mul (numZ 2) Math_PI)];
   FillText "#ffffff"
     ("bold " +:+ NumberToString (num_div (numZ 48) (numZ 2)) +:+ "px Arial")
     "center" "middle" "!"
     (num_div (numZ 48) (numZ 2)) (num_div (numZ 48) (numZ 2))].

(** What [await getOrganizationId()] gives the cycle. *)
Definition resolved_orgId (net : Net) (st : gmap string Value) : Value :=
  match completion (getOrganizationId net st) with
  | Normal v => v
  | Throw _ => VNull
  end.

(** A step of the chain fails: the identifier is not resolved, the usage
    fetch is rejected or answered with a status that is not a success, the
    body does not parse, or the [five_hour] field cannot be extracted from
    the document. *)
Inductive step_fails (net : Net) (orgId : Value) : Prop :=
  | identifier_unresolved :
      truthy orgId = false -> step_fails net orgId
  | usage_fetch_rejected (message : string) :
      net (usage_url orgId) = Rejected message -> step_fails net orgId
  | usage_fetch_status (s : Z) (b : Body) :
      net (usage_url orgId) = Responded s b ->
      ok (mkResponse s b) = false -> step_fails net orgId
  | usage_parse_fails (s : Z) (message : string) :
      net (usage_url orgId) = Responded s (BadBody message) -> step_fails net orgId
  | field_extraction_fails (s : Z) (data : Value) :
      net (usage_url orgId) = Responded s (JsonBody data) ->
      nullish data = true \/ truthy (read data (Name "five_hour")) = false ->
      step_fails net orgId.

(** Every step of the chain succeeds. *)
Definition chain_ok (net : Net) (orgId : Value) : bool :=
  truthy orgId &&
  match net (usage_url orgId) with
  | Responded s (JsonBody data) =>
      ok (mkResponse s (JsonBody data)) && negb (nullish data) &&
      truthy (read data (Name "five_hour"))
  | _ => false
  end.

(** The cache holds no identifier, or a truthy one. *)
Definition cache_ok (st : gmap string Value) : Prop :=
  st !! "orgId" = None \/ truthy (cached_orgId st) = true.

End Worker.

Arguments Normal {A} a.
Arguments Throw {A} message.

(** ** The timer driver and the listeners *)

Section Driver.

Context `{Platform}.

Definition POLL_INTERVAL_MINUTES : Z := 5.
Definition ALARM_NAME : string := "usagePoll".

(** The state the listeners work on: the extension storage, and the alarms
    registered with [chrome.alarms], each with its [periodInMinutes]. *)
Record Worker : Type := mkWorker {
  local_storage : gmap string Value;
  alarms : gmap string Z
}.

(** The calls a listener makes: those of a cycle, and those to
    [chrome.alarms] and [chrome.tabs]. *)
Inductive Call : Type :=
  | InCycle (e : Event)
  | AlarmsClear (name : string)
  | AlarmsCreate (name : string) (periodInMinutes : Z)
  | TabsCreate (url : string).

(** A computation of a listener. *)
Definition W (A : Type) : Type :=
  Worker -> Completion A * Worker * list Call.

Definition wret {A} (a : A) : W A := fun w => (Normal a, w, []).

Definition wbind {A B} (m : W A) (k : A -> W B) : W B :=
  fun w =>
    match m w with
    | (Normal a, w1, c1) =>
        match k a w1 with
        | (r, w2, c2) => (r, w2, c1 ++ c2)
        end
    | (Throw e, w1, c1) => (Throw e, w1, c1)
    end.

(** A computation on the storage, run by a listener. *)
Definition lift {A} (m : M A) : W A :=
  fun w =>
    match m (local_storage w) with
    | (r, st, ev) => (r, mkWorker st (alarms w), List.map InCycle ev)
    end.

(** [await chrome.alarms.clear(name)] *)
Definition alarms_clear (name : string) : W unit :=
  fun w => (Normal tt, mkWorker (local_storage w) (delete name (alarms w)),
            [AlarmsClear name]).

(** [chrome.alarms.create(name, { periodInMinutes })]: an alarm of that name
    is replaced. *)
Definition alarms_create (name : string) (periodInMinutes : Z) : W unit :=
  fun w => (Normal tt,
            mkWorker (local_storage w) (<[name := periodInMinutes]> (alarms w)),
            [AlarmsCreate name periodInMinutes]).

(** [chrome.tabs.create({ url })] *)
Definition tabs_create (url : string) : W unit :=
  fun w => (Normal tt, w, [TabsCreate url]).

(** Set up periodic polling. *)
Definition initializeMonitoring (f : SourceFile) (net : Net) : W unit :=
  (* Clear any existing alarms *)
  wbind (alarms_clear ALARM_NAME) (fun _ =>
  (* Create alarm for periodic updates *)
  wbind (alarms_create ALARM_NAME POLL_INTERVAL_MINUTES) (fun _ =>
  (* Fetch immediately on init *)
  lift (fetchAndUpdateUsage f net))).

(** What the browser delivers to the worker. *)
Inductive BrowserEvent : Type :=
  | Installed                  (* chrome.runtime.onInstalled *)
  | Startup                    (* chrome.runtime.onStartup *)
  | Clicked                    (* chrome.action.onClicked *)
  | AlarmFired (name : string) (* chrome.alarms.onAlarm *).

(** The listener of [chrome.alarms.onAlarm]: src/background.js polls on
    every alarm, src/unnamed/part_000 on the alarm [ALARM_NAME] only. *)
Definition onAlarm (f : SourceFile) (name : string) (net : Net) : W unit :=
  match f with
  | background_js => lift (fetchAndUpdateUsage f net)
  | part_000 =>
      if String.eqb name ALARM_NAME
      then lift (fetchAndUpdateUsage f net)
      else wret tt
  end.

(** The listener that an event reaches, run to completion on the network
    of the moment. *)
Definition dispatch (f : SourceFile) (ev : BrowserEvent) (net : Net) : W unit :=
  match ev with
  | Installed => initializeMonitoring f net
  | Startup => initializeMonitoring f net
  | Clicked => tabs_create "https://claude.ai/settings/usage"
  | AlarmFired name => onAlarm f name net
  end.

(** The worker over a sequence of events, one listener at a time: the state
    at the end and all the calls made. The listeners do not await the cycle
    they start, so in the browser two cycles can overlap at their awaits; the
    statements over [run] are about each call taken alone (its URL, the value
    it stores, the tab it opens) and about the alarms, which no cycle
    touches. *)
Fixpoint run (f : SourceFile) (evs : list (BrowserEvent * Net)) (w : Worker) :
  Worker * list Call :=
  match evs with
  | [] => (w, [])
  | (ev, net) :: rest =>
      let r := dispatch f ev net w in
      let r' := run f rest r.1.2 in
      (r'.1, r.2 ++ r'.2)
  end.

(** Observations on calls and events. *)
Definition is_fetch (e : Event) : bool :=
  match e with
  | Fetch _ _ => true
  | _ => false
  end.

Definition fetched_url (c : Call) : option string :=
  match c with
  | InCycle (Fetch url _) => Some url
  | _ => None
  end.

Definition opened_tab (c : Call) : option string :=
  match c with
  | TabsCreate url => Some url
  | _ => None
  end.

Definition is_click (e : BrowserEvent * Net) : bool :=
  match e.1 with
  | Clicked => true
  | _ => false
  end.

Definition is_init (e : BrowserEvent * Net) : bool :=
  match e.1 with
  | Installed | Startup => true
  | _ => false
  end.

End Driver.

(** A platform to run the examples on: integers print in decimal, a string
    of decimal digits reads as that integer, every time prints as noon and
    every canvas rasterises to no bytes. *)
Definition example_NumberToString (n : Number) : string :=
  match n with
  | NaN => "NaN"
  | Fin q =>
      if (Zpos (Qden q) =? 1)%Z then pretty (Qnum q)
      else pretty (Qnum q) +:+ "/" +:+ pretty (Zpos (Qden q))
  end.

Fixpoint example_digits (acc : Z) (s : string) : Number :=
  match s with
  | EmptyString => numZ acc
  | String c rest =>
      let d := Z.of_nat (nat_of_ascii c) in
      if ((48 <=? d) && (d <=? 57))%Z
      then example_digits (acc * 10 + (d - 48)) rest
      else NaN
  end.

Definition example_platform : Platform :=
  {| NumberToString := example_NumberToString;
     StringToNumber := example_digits 0;
     toLocaleTimeString := fun _ => "12:00 PM";
     rasterize := fun _ _ _ _ _ _ _ => [] |}.

(** Documents and networks for the examples. *)
Definition bootstrap_doc (uuid : Value) : Value :=
  VObj [("account",
         VObj [("memberships",
                VArr [VObj [("organization", VObj [("uuid", uuid)])]])])].

Definition usage_doc : Value :=
  VObj [("five_hour",
         VObj [("utilization", VNum (numZ 22));
               ("resets_at", VStr "2025-10-01T21:59:00Z")]);
        ("seven_day", VObj [("utilization", VNum (numZ 3))])].

Definition usage_doc_without_utilization : Value :=
  VObj [("five_hour", VObj [("resets_at", VStr "2025-10-01T21:59:00Z")])].

Definition usage_doc_without_five_hour : Value :=
  VObj [("seven_day", VObj [("utilization", VNum (numZ 3))])].

(** The bootstrap URL answers [bootstrap], every other URL [usage]. *)
Definition example_net (bootstrap usage : FetchOutcome) : Net :=
  fun url => if String.eqb url bootstrap_url then bootstrap else usage.

Definition healthy_net : Net :=
  example_net (Responded 200 (JsonBody (bootstrap_doc (VStr "org-1"))))
              (Responded 200 (JsonBody usage_doc)).

(** The storage after the identifier [org-1] was cached. *)
Definition cached_storage : gmap string Value := {["orgId" := VStr "org-1"]}.

(** A parsed object that cannot be converted to a primitive:
    [JSON.parse('{"toString":1}')]. *)
Definition toString_keyed : Value := VObj [("toString", VNum (numZ 1))].

(** * Properties *)

Section Properties.

Context `{Platform}.

(** ** [getOrganizationId], case by case *)

Lemma cached_read (st : gmap string Value) :
  read (match st !! "orgId" with
        | Some v => VObj [("orgId", v)]
        | None => VObj []
        end) (Name "orgId") = cached_orgId st.
Proof. unfold cached_orgId. destruct (st !! "orgId"); reflexivity. Qed.

(** A truthy cached entry is returned as it is: one storage read, no fetch,
    no write. *)
Lemma getOrganizationId_hit (net : Net) (st : gmap string Value) :
  truthy (cached_orgId st) = true ->
  getOrganizationId net st = (Normal (cached_orgId st), st, [StorageGet "orgId"]).
Proof.
  intros Hhit.
  unfold getOrganizationId, try_catch, bind, storage_local_get.
  rewrite cached_read, Hhit. reflexivity.
Qed.

Lemma getOrganizationId_miss (net : Net) (st : gmap string Value) :
  truthy (cached_orgId st) = false ->
  getOrganizationId net st = bootstrap_result net st.
Proof.
  intros Hmiss.
  unfold getOrganizationId, bootstrap_result, try_catch, bind, storage_local_get.
  rewrite cached_read, Hmiss.
  unfold fetch, json, storage_local_set, bind, emit, throw, ret.
  destruct (net bootstrap_url) as [m | s b]; [reflexivity |].
  cbn [negb status body app].
  destruct (ok (mkResponse s b)); cbn [negb]; [| reflexivity].
  destruct b as [data | m]; cbn [body app]; [| reflexivity].
  destruct (truthy (bootstrap_orgId data)); reflexivity.
Qed.

(** [getOrganizationId] never throws. *)
Lemma getOrganizationId_normal (net : Net) (st : gmap string Value) :
  exists v, completion (getOrganizationId net st) = Normal v.
Proof.
  destruct (truthy (cached_orgId st)) eqn:Hc.
  - rewrite getOrganizationId_hit by assumption. eexists; reflexivity.
  - rewrite getOrganizationId_miss by assumption. unfold bootstrap_result.
    destruct (net bootstrap_url) as [m | s [data | m]];
      repeat (match goal with |- context [if ?b then _ else _] => destruct b end);
      eexists; reflexivity.
Qed.

(** ** [generateIcon], [updateBadgeError] and [updateBadge] as events *)

Lemma generateIcon_run (f : SourceFile) (percentage : Value) (size : Z)
    (st : gmap string Value) :
  coercible percentage = true ->
  (4 <= size)%Z ->
  generateIcon f percentage size st = (Normal (icon_pixels f percentage size), st, []).
Proof.
  intros Hc Hsize. unfold generateIcon, to_number, bind, ret.
  destruct (Z.ltb_spec size 0); [lia |]. rewrite Hc.
  destruct f.
  - destruct (Z.eqb_spec size 0); [lia | reflexivity].
  - destruct (Z.ltb_spec size 4); [lia | reflexivity].
Qed.

Lemma generateIcon_throws (f : SourceFile) (percentage : Value) (size : Z)
    (st : gmap string Value) :
  coercible percentage = false ->
  (0 <= size)%Z ->
  generateIcon f percentage size st = (Throw cannot_convert, st, []).
Proof.
  intros Hc Hsize. unfold generateIcon, to_number, bind, throw.
  destruct (Z.ltb_spec size 0); [lia |]. rewrite Hc. reflexivity.
Qed.

Lemma updateBadgeError_run (f : SourceFile) (message : string)
    (st : gmap string Value) :
  updateBadgeError f message st = (Normal tt, st, error_state f message).
Proof. reflexivity. Qed.

Lemma updateBadge_nullish (f : SourceFile) (data : Value) (st : gmap string Value) :
  nullish data = true ->
  updateBadge f data st = (Throw (type_error data "five_hour"), st, []).
Proof.
  intros Hn. unfold updateBadge, member, bind, throw. rewrite Hn. reflexivity.
Qed.

Lemma updateBadge_no_data (f : SourceFile) (data : Value) (st : gmap string Value) :
  nullish data = false ->
  truthy (read data (Name "five_hour")) = false ->
  updateBadge f data st = (Normal tt, st, error_state f "No data").
Proof.
  intros Hn Hf. unfold updateBadge, member, bind, ret. rewrite Hn, Hf. reflexivity.
Qed.

Lemma updateBadge_success (f : SourceFile) (data : Value) (st : gmap string Value) :
  nullish data = false ->
  truthy (read data (Name "five_hour")) = true ->
  coercible (usage_percentage (read data (Name "five_hour"))) = true ->
  truthy (read (read data (Name "five_hour")) (Name "resets_at")) &&
  negb (coercible (read (read data (Name "five_hour")) (Name "resets_at"))) = false ->
  updateBadge f data st =
    (Normal tt, st, success_state f (read data (Name "five_hour"))).
Proof.
  intros Hn Hf Hp Hr. unfold updateBadge, member, bind at 1, ret. rewrite Hn, Hf.
  cbn [negb]. fold (usage_percentage (read data (Name "five_hour"))).
  unfold bind, template, Date_toLocaleTimeString.
  rewrite !generateIcon_run by (assumption || lia). rewrite Hp.
  unfold emit, ret. cbn [app]. unfold success_state.
  destruct (truthy (read (read data (Name "five_hour")) (Name "resets_at"))).
  - cbn [andb] in Hr. apply negb_false_iff in Hr. rewrite Hr. reflexivity.
  - reflexivity.
Qed.

(** A percentage that cannot be converted: [generateIcon] throws before
    anything is rendered. *)
Lemma updateBadge_bad_percentage (f : SourceFile) (data : Value)
    (st : gmap string Value) :
  nullish data = false ->
  truthy (read data (Name "five_hour")) = true ->
  coercible (usage_percentage (read data (Name "five_hour"))) = false ->
  updateBadge f data st = (Throw cannot_convert, st, []).
Proof.
  intros Hn Hf Hp. unfold updateBadge, member, bind at 1, ret. rewrite Hn, Hf.
  cbn [negb]. fold (usage_percentage (read data (Name "five_hour"))).
  unfold bind at 1. rewrite generateIcon_throws by (assumption || lia).
  reflexivity.
Qed.

(** A [resets_at] that cannot be converted: [new Date] throws after the
    icon, the badge text and its two colours are set. *)
Lemma updateBadge_bad_date (f : SourceFile) (data : Value) (st : gmap string Value) :
  nullish data = false ->
  truthy (read data (Name "five_hour")) = true ->
  coercible (usage_percentage (read data (Name "five_hour"))) = true ->
  truthy (read (read data (Name "five_hour")) (Name "resets_at")) &&
  negb (coercible (read (read data (Name "five_hour")) (Name "resets_at"))) = true ->
  updateBadge f data st =
    (Throw cannot_convert, st,
     firstn 4 (success_state f (read data (Name "five_hour")))).
Proof.
  intros Hn Hf Hp Hr. apply andb_prop in Hr. destruct Hr as [Ht Hc].
  apply negb_true_iff in Hc.
  unfold updateBadge, member, bind at 1, ret. rewrite Hn, Hf.
  cbn [negb]. fold (usage_percentage (read data (Name "five_hour"))).
  unfold bind, template, Date_toLocaleTimeString.
  rewrite !generateIcon_run by (assumption || lia). rewrite Hp, Ht, Hc.
  reflexivity.
Qed.

(** [updateBadge] returns with the events of [badge_events], or throws
    with those that precede the error state in [badge_events]. *)
Lemma updateBadge_cases (f : SourceFile) (data : Value) (st : gmap string Value) :
  updateBadge f data st = (Normal tt, st, badge_events f data) \/
  exists e pre,
    updateBadge f data st = (Throw e, st, pre) /\
    badge_events f data = pre ++ error_state f e.
Proof.
  unfold badge_events.
  destruct (nullish data) eqn:Hn.
  { right. eexists _, []. split; [apply updateBadge_nullish; exact Hn | reflexivity]. }
  destruct (truthy (read data (Name "five_hour"))) eqn:Hf.
  2: { left. apply updateBadge_no_data; assumption. }
  destruct (coercible (usage_percentage (read data (Name "five_hour")))) eqn:Hp.
  2: { right. eexists _, [].
       split; [apply updateBadge_bad_percentage; assumption | reflexivity]. }
  destruct (truthy (read (read data (Name "five_hour")) (Name "resets_at")) &&
            negb (coercible (read (read data (Name "five_hour")) (Name "resets_at"))))
    eqn:Hr.
  - right. eexists _, _.
    split; [apply updateBadge_bad_date; assumption | reflexivity].
  - left. apply updateBadge_success; assumption.
Qed.

(** ** [fetchAndUpdateUsage] as events *)

(** Closes an equation between event lists that differ by bracketing. *)
Ltac list_done :=
  cbn [app]; rewrite <- ?List.app_assoc, ?List.app_nil_r; reflexivity.

Lemma fetchAndUpdateUsage_run (f : SourceFile) (net : Net)
    (st st1 : gmap string Value) (orgId : Value) (ev1 : list Event) :
  getOrganizationId net st = (Normal orgId, st1, ev1) ->
  fetchAndUpdateUsage f net st = (Normal tt, st1, ev1 ++ usage_events f net orgId).
Proof.
  intros Hid. unfold fetchAndUpdateUsage, usage_events, try_catch.
  unfold bind at 1. rewrite Hid.
  destruct (truthy orgId); cbn [negb].
  - unfold bind at 1, template.
    destruct (coercible orgId).
    + unfold ret at 1. fold (usage_url orgId).
      unfold bind at 1, fetch.
      destruct (net (usage_url orgId)) as [m | s b].
      * unfold bind, emit, throw. cbn [app].
        rewrite updateBadgeError_run. list_done.
      * unfold bind at 1, emit, ret. cbn [app status body].
        destruct (ok (mkResponse s b)); cbn [negb].
        -- unfold bind at 1, json. cbn [body].
           destruct b as [data | m].
           ++ unfold ret.
              destruct (updateBadge_cases f data st1)
                as [Hb | (e & pre & Hb & Hev)]; rewrite Hb.
              ** list_done.
              ** rewrite updateBadgeError_run, Hev. list_done.
           ++ unfold throw. rewrite updateBadgeError_run. list_done.
        -- unfold throw. rewrite updateBadgeError_run. list_done.
    + unfold throw. rewrite updateBadgeError_run. list_done.
  - rewrite updateBadgeError_run. list_done.
Qed.

(** ** The drawing commands of the two icons *)

Lemma thermometer_drawn (percentage : Value) (size : Z) :
  ctx_drawn (thermometer percentage size) =
    frame_commands size ++
    (if num_gt (numZ (barHeight size)) (numZ 0) &&
        num_gt (barWidth percentage size) (numZ 0)
     then [bar_command percentage size] else []).
Proof.
  unfold thermometer.
  destruct (num_gt (numZ (barHeight size)) (numZ 0) &&
            num_gt (barWidth percentage size) (numZ 0)); reflexivity.
Qed.

Lemma circular_drawn (percentage : Value) (size : Z) :
  In (progress_command percentage size) (ctx_drawn (circular percentage size)).
Proof.
  unfold circular. destruct (32 <=? size)%Z; cbn; auto.
Qed.

Lemma num_lt_Fin (x y : Q) : num_lt (Fin x) (Fin y) = true <-> (x < y)%Q.
Proof.
  unfold num_lt. destruct (Qlt_le_dec x y) as [Hlt | Hle]; split; auto.
  - discriminate.
  - intros Hlt. exfalso. apply (Qlt_not_le _ _ Hlt Hle).
Qed.

Lemma num_lt_Fin_false (x y : Q) : num_lt (Fin x) (Fin y) = false <-> (y <= x)%Q.
Proof.
  unfold num_lt. destruct (Qlt_le_dec x y) as [Hlt | Hle]; split; auto.
  - discriminate.
  - intros Hle. exfalso. apply (Qlt_not_le _ _ Hlt Hle).
Qed.

(** ** C1: the colour thresholds *)

(** C1. For every percentage that reads as the number [q], both versions of
    [generateIcon] select green ([#10b981]) when [q < 50], yellow
    ([#f59e0b]) when [50 <= q < 80] and red ([#ef4444]) when [q >= 80]; the
    progress arc is stroked, and the bar (when it is drawn) is filled, with
    the colour selected. *)
Theorem generateIcon_color_thresholds (percentage : Value) (q : Q) (size : Z) :
  ToNumber percentage = Fin q ->
  progressColor percentage = fillColor percentage /\
  ((q < 50)%Q -> fillColor percentage = "#10b981") /\
  ((50 <= q)%Q /\ (q < 80)%Q -> fillColor percentage = "#f59e0b") /\
  ((80 <= q)%Q -> fillColor percentage = "#ef4444") /\
  In (Stroke (fillColor percentage) (lineWidth size) "round"
        [Arc (centerX size) (centerY size) (radius size) startAngle
           (endAngle percentage)])
     (ctx_drawn (circular percentage size)) /\
  (num_gt (numZ (barHeight size)) (numZ 0) &&
   num_gt (barWidth percentage size) (numZ 0) = true ->
   In (FillRect (fillColor percentage) (numZ (barX size)) (numZ (barY size))
         (barWidth percentage size) (numZ (barHeight size)))
      (ctx_drawn (thermometer percentage size))).
Proof.
  intros Hq.
  assert (Hsame : progressColor percentage = fillColor percentage) by reflexivity.
  split; [exact Hsame |].
  split; [| split; [| split; [| split]]].
  - unfold fillColor. rewrite Hq. intros Hlt.
    apply (proj2 (num_lt_Fin q (inject_Z 50))) in Hlt. unfold numZ.
    rewrite Hlt. reflexivity.
  - unfold fillColor. rewrite Hq. intros [Hge Hlt].
    apply (proj2 (num_lt_Fin_false q (inject_Z 50))) in Hge.
    apply (proj2 (num_lt_Fin q (inject_Z 80))) in Hlt. unfold numZ.
    rewrite Hge, Hlt. reflexivity.
  - unfold fillColor. rewrite Hq. intros Hge.
    assert (Hge50 : (inject_Z 50 <= q)%Q)
      by (eapply Qle_trans; [| exact Hge]; discriminate).
    apply (proj2 (num_lt_Fin_false q (inject_Z 80))) in Hge.
    apply (proj2 (num_lt_Fin_false q (inject_Z 50))) in Hge50. unfold numZ.
    rewrite Hge, Hge50. reflexivity.
  - rewrite <- Hsame. apply circular_drawn.
  - intros Hdrawn. rewrite thermometer_drawn, Hdrawn.
    apply in_or_app. right. left. reflexivity.
Qed.

(** ** C6: the error renderer *)

(** C6 (as amended). For every message [m], [updateBadgeError(m)] returns
    normally, leaves the storage as it was and makes exactly three calls. It
    sets the icon of the error state, the same for every [m]: the static file
    [error-icon.png] in src/background.js; in src/unnamed/part_000 the
    48-pixel rasterisation, used at the three sizes, of a gray ([#6b7280])
    disc with a white exclamation mark. It sets the badge text to the empty
    string. It sets the tooltip to a fixed prefix followed by [m]. *)
Theorem updateBadgeError_renders (m : string) (st : gmap string Value) :
  updateBadgeError background_js m st =
    (Normal tt, st,
     [SetIcon (IconPath "error-icon.png");
      SetBadgeText "";
      SetTitle ("Make sure you are logged in to Claude.ai!" +:+ nl +:+
                "Error: " +:+ m)]) /\
  updateBadgeError part_000 m st =
    (Normal tt, st,
     [SetIcon (IconImageData errorIcon errorIcon errorIcon);
      SetBadgeText "";
      SetTitle ("Claude Usage Monitor" +:+ nl +:+ "Error: " +:+ m)]) /\
  errorIcon =
    mkImageData (numZ 48) (numZ 48)
      (rasterize (numZ 48) (numZ 48) errorIcon_commands
         (numZ 0) (numZ 0) (numZ 48) (numZ 48)).
Proof.
  split; [| split].
  - rewrite updateBadgeError_run. reflexivity.
  - rewrite updateBadgeError_run. reflexivity.
  - reflexivity.
Qed.

(** ** C2: a usage document without the expected field *)

(** C2 (as amended). For every usage document whose [five_hour] entry is
    absent (or otherwise falsy), [updateBadge] renders the error state with
    the message [No data] and nothing else. When [five_hour] is there and its
    [utilization] is absent, [updateBadge] does not render the error state:
    it takes the percentage [0], the default of [fiveHour.utilization || 0],
    and its first four calls set the icon for 0 percent, the badge [0]
    followed by the percent sign, and the two badge colours; it ends with the
    usage tooltip and returns, unless [new Date(resets_at)] throws (a truthy
    [resets_at] that cannot be converted to a primitive). (On [null], which
    has no properties, [updateBadge] throws before it renders anything.) *)
Theorem updateBadge_missing_field (f : SourceFile) (data : Value)
    (st : gmap string Value) :
  (nullish data = true ->
   updateBadge f data st = (Throw (type_error data "five_hour"), st, [])) /\
  (nullish data = false ->
   truthy (read data (Name "five_hour")) = false ->
   updateBadge f data st = (Normal tt, st, error_state f "No data")) /\
  (nullish data = false ->
   truthy (read data (Name "five_hour")) = true ->
   read (read data (Name "five_hour")) (Name "utilization") = VUndefined ->
   usage_percentage (read data (Name "five_hour")) = VNum (numZ 0) /\
   firstn 4 (events (updateBadge f data st)) =
     [SetIcon (IconImageData (icon_pixels f (VNum (numZ 0)) 16)
                 (icon_pixels f (VNum (numZ 0)) 32)
                 (icon_pixels f (VNum (numZ 0)) 48));
      SetBadgeText (ToString (VNum (numZ 0)) +:+ "%");
      SetBadgeTextColor "#D97706";
      SetBadgeBackgroundColor [0; 0; 0; 0]%Z] /\
   In (SetBadgeText (ToString (VNum (numZ 0)) +:+ "%"))
      (events (updateBadge f data st)) /\
   (truthy (read (read data (Name "five_hour")) (Name "resets_at")) &&
    negb (coercible (read (read data (Name "five_hour")) (Name "resets_at"))) = false ->
    updateBadge f data st =
      (Normal tt, st, success_state f (read data (Name "five_hour")))) /\
   (truthy (read (read data (Name "five_hour")) (Name "resets_at")) &&
    negb (coercible (read (read data (Name "five_hour")) (Name "resets_at"))) = true ->
    updateBadge f data st =
      (Throw cannot_convert, st,
       firstn 4 (success_state f (read data (Name "five_hour")))))).
Proof.
  split; [| split].
  - apply updateBadge_nullish.
  - apply updateBadge_no_data.
  - intros Hn Hf Hu.
    assert (Hp : usage_percentage (read data (Name "five_hour")) = VNum (numZ 0))
      by (unfold usage_percentage; rewrite Hu; reflexivity).
    assert (Hc : coercible (usage_percentage (read data (Name "five_hour"))) = true)
      by (rewrite Hp; reflexivity).
    assert (Hfour : firstn 4 (success_state f (read data (Name "five_hour"))) =
              [SetIcon (IconImageData (icon_pixels f (VNum (numZ 0)) 16)
                          (icon_pixels f (VNum (numZ 0)) 32)
                          (icon_pixels f (VNum (numZ 0)) 48));
               SetBadgeText (ToString (VNum (numZ 0)) +:+ "%");
               SetBadgeTextColor "#D97706";
               SetBadgeBackgroundColor [0; 0; 0; 0]%Z])
      by (unfold success_state; rewrite Hp; reflexivity).
    split; [exact Hp |].
    destruct (truthy (read (read data (Name "five_hour")) (Name "resets_at")) &&
              negb (coercible (read (read data (Name "five_hour")) (Name "resets_at"))))
      eqn:Hr.
    + rewrite (updateBadge_bad_date f data st Hn Hf Hc Hr).
      unfold events. cbn [snd]. rewrite Hfour.
      split; [reflexivity |]. split; [right; left; reflexivity |].
      split; [discriminate | reflexivity].
    + rewrite (updateBadge_success f data st Hn Hf Hc Hr).
      unfold events. cbn [snd]. rewrite <- Hfour.
      split; [reflexivity |]. split.
      * unfold success_state. rewrite Hp. right. left. reflexivity.
      * split; [reflexivity | discriminate].
Qed.

(** ** Events of the identifier resolution and of the rest of the cycle *)

Lemma usage_url_not_bootstrap (orgId : Value) :
  String.eqb (usage_url orgId) bootstrap_url = false.
Proof. reflexivity. Qed.

Lemma cached_orgId_insert (st : gmap string Value) (v : Value) :
  cached_orgId (<["orgId" := v]> st) = v.
Proof. unfold cached_orgId. rewrite lookup_insert_eq. reflexivity. Qed.

Lemma getOrganizationId_eq (net : Net) (st : gmap string Value) :
  getOrganizationId net st =
    (Normal (resolved_orgId net st),
     storage_after (getOrganizationId net st),
     events (getOrganizationId net st)).
Proof.
  unfold resolved_orgId. destruct (getOrganizationId_normal net st) as [v Hv].
  rewrite Hv. revert Hv. unfold completion, storage_after, events.
  destruct (getOrganizationId net st) as [[r st1] ev1]. cbn. intros ->. reflexivity.
Qed.

(** The identifier resolution makes no call to [chrome.action]; when it
    resolves an identifier, no fetch of it was answered with a failure. *)
Lemma getOrganizationId_events (net : Net) (st : gmap string Value) :
  actions (events (getOrganizationId net st)) = [] /\
  (truthy (resolved_orgId net st) = true ->
   existsb non_success (events (getOrganizationId net st)) = false).
Proof.
  unfold resolved_orgId.
  destruct (truthy (cached_orgId st)) eqn:Hc.
  - rewrite getOrganizationId_hit by assumption. split; reflexivity.
  - rewrite getOrganizationId_miss by assumption. unfold bootstrap_result.
    destruct (net bootstrap_url) as [m | s [data | m]].
    + split; [reflexivity | discriminate].
    + destruct (ok (mkResponse s (JsonBody data))) eqn:Hok.
      * destruct (truthy (bootstrap_orgId data)); (split; [reflexivity |]).
        -- intros _. unfold ok in Hok. cbn [status] in Hok.
           cbn [events snd existsb non_success]. rewrite Hok. reflexivity.
        -- discriminate.
      * split; [reflexivity | discriminate].
    + destruct (ok (mkResponse s (BadBody m))); (split; [reflexivity | discriminate]).
Qed.

Lemma actions_app (l1 l2 : list Event) : actions (l1 ++ l2) = actions l1 ++ actions l2.
Proof. apply List.filter_app. Qed.

(** When a step fails, what follows the identifier resolution is at most
    the usage fetch and then the three calls of [updateBadgeError]. *)
Lemma usage_events_error (f : SourceFile) (net : Net) (orgId : Value) :
  chain_ok net orgId = false ->
  exists m pre, usage_events f net orgId = pre ++ error_state f m /\ actions pre = [].
Proof.
  unfold chain_ok, usage_events, badge_events. intros Hfail.
  destruct (truthy orgId); [| exists "No org ID", []; split; reflexivity].
  cbn [andb] in Hfail.
  destruct (coercible orgId); [| eexists _, []; split; reflexivity].
  destruct (net (usage_url orgId)) as [m | s b] eqn:Hnet.
  - exists m, [Fetch (usage_url orgId) (Rejected m)]. split; reflexivity.
  - destruct (ok (mkResponse s b)) eqn:Hok.
    + destruct b as [data | m].
      * rewrite Hok in Hfail. cbn [andb] in Hfail.
        destruct (nullish data).
        -- eexists _, [_]. split; reflexivity.
        -- cbn [negb andb] in Hfail. rewrite Hfail.
           eexists _, [_]. split; reflexivity.
      * eexists _, [_]. split; reflexivity.
    + eexists _, [_]. split; reflexivity.
Qed.

(** When every step succeeds, the usage fetch was answered with a success
    status. *)
Lemma usage_events_ok (f : SourceFile) (net : Net) (orgId : Value) :
  chain_ok net orgId = true ->
  existsb non_success (usage_events f net orgId) = false.
Proof.
  unfold chain_ok, usage_events, badge_events. intros Hok.
  destruct (truthy orgId); [| discriminate]. cbn [andb] in Hok.
  destruct (coercible orgId); [| reflexivity].
  destruct (net (usage_url orgId)) as [m | s [data | m]]; try discriminate.
  apply andb_prop in Hok. destruct Hok as [Hok Hfh].
  apply andb_prop in Hok. destruct Hok as [Hok Hn].
  rewrite Hok. apply negb_true_iff in Hn. rewrite Hn, Hfh.
  unfold ok in Hok. cbn [status] in Hok.
  cbn [existsb non_success]. rewrite Hok. cbn [negb orb].
  repeat (match goal with |- context [if ?b then _ else _] => destruct b end);
    reflexivity.
Qed.

Lemma step_fails_chain (net : Net) (orgId : Value) :
  step_fails net orgId -> chain_ok net orgId = false.
Proof.
  unfold chain_ok.
  intros [Hid | m Hnet | s b Hnet Hok | s m Hnet | s data Hnet [Hn | Hf]];
    try rewrite Hid; try rewrite Hnet; try reflexivity;
    destruct (truthy orgId); cbn [andb]; try reflexivity.
  - destruct b; [rewrite Hok |]; reflexivity.
  - rewrite Hn. cbn [negb]. rewrite andb_false_r. reflexivity.
  - rewrite Hf. apply andb_false_r.
Qed.

(** The whole cycle, from the identifier it resolves. *)
Lemma fetchAndUpdateUsage_eq (f : SourceFile) (net : Net) (st : gmap string Value) :
  fetchAndUpdateUsage f net st =
    (Normal tt, storage_after (getOrganizationId net st),
     events (getOrganizationId net st) ++
     usage_events f net (resolved_orgId net st)).
Proof. apply fetchAndUpdateUsage_run. apply getOrganizationId_eq. Qed.

(** A cycle in which a step fails makes the three calls of
    [updateBadgeError] last, and no other call to [chrome.action]. *)
Lemma cycle_error (f : SourceFile) (net : Net) (st : gmap string Value) :
  chain_ok net (resolved_orgId net st) = false ->
  completion (fetchAndUpdateUsage f net st) = Normal tt /\
  exists m pre,
    events (fetchAndUpdateUsage f net st) = pre ++ error_state f m /\
    actions pre = [].
Proof.
  intros Hfail. rewrite fetchAndUpdateUsage_eq. split; [reflexivity |].
  destruct (usage_events_error f net _ Hfail) as (m & pre & Hev & Hpre).
  exists m, (events (getOrganizationId net st) ++ pre).
  unfold events at 1. cbn [snd]. rewrite Hev. split.
  - apply List.app_assoc.
  - rewrite actions_app, Hpre.
    rewrite (proj1 (getOrganizationId_events net st)). reflexivity.
Qed.

(** ** C4: a status that is not a success *)

(** C4. For every cycle in which a fetch (of the bootstrap document or of
    the usage document) is answered with an HTTP status outside 200-299,
    [fetchAndUpdateUsage] returns normally (no exception escapes) and ends
    with the three calls of [updateBadgeError]; these are the only calls to
    [chrome.action] of the cycle. *)
Theorem non_success_status_error_state (f : SourceFile) (net : Net)
    (st : gmap string Value) :
  existsb non_success (events (fetchAndUpdateUsage f net st)) = true ->
  completion (fetchAndUpdateUsage f net st) = Normal tt /\
  exists m pre,
    events (fetchAndUpdateUsage f net st) = pre ++ error_state f m /\
    actions pre = [].
Proof.
  intros Hbad.
  destruct (chain_ok net (resolved_orgId net st)) eqn:Hchain.
  - exfalso. rewrite fetchAndUpdateUsage_eq in Hbad.
    unfold events at 1 in Hbad. cbn [snd] in Hbad.
    rewrite existsb_app, (usage_events_ok f net _ Hchain) in Hbad.
    assert (Hid : truthy (resolved_orgId net st) = true)
      by (unfold chain_ok in Hchain; apply andb_prop in Hchain; tauto).
    rewrite (proj2 (getOrganizationId_events net st) Hid) in Hbad.
    discriminate.
  - apply cycle_error. exact Hchain.
Qed.

(** ** C7: any failure aborts the cycle in the error state *)

(** C7. In every cycle in which a step of the chain fails (the identifier
    is not resolved, the usage fetch is rejected or answered with a failure
    status, the body does not parse, or [five_hour] cannot be extracted), the
    cycle returns normally, its calls to [chrome.action] are exactly the three
    calls of [updateBadgeError] for some message, made last: the success path
    of [updateBadge] (generated icon, percentage badge, badge colours, usage
    tooltip) is not executed. *)
Theorem failure_renders_error_and_aborts (f : SourceFile) (net : Net)
    (st : gmap string Value) :
  step_fails net (resolved_orgId net st) ->
  completion (fetchAndUpdateUsage f net st) = Normal tt /\
  exists m,
    actions (events (fetchAndUpdateUsage f net st)) = error_state f m /\
    (exists pre, events (fetchAndUpdateUsage f net st) = pre ++ error_state f m) /\
    (forall e, In e (events (fetchAndUpdateUsage f net st)) ->
       match e with
       | SetBadgeTextColor _ | SetBadgeBackgroundColor _ => False
       | SetIcon icon => icon = error_icon f
       | SetBadgeText text => text = ""
       | SetTitle title => title = error_title f +:+ m
       | _ => True
       end).
Proof.
  intros Hfail. apply step_fails_chain in Hfail.
  destruct (cycle_error f net st Hfail) as (Hret & m & pre & Hev & Hpre).
  split; [exact Hret |]. exists m.
  assert (Hact : actions (events (fetchAndUpdateUsage f net st)) = error_state f m)
    by (rewrite Hev, actions_app, Hpre; reflexivity).
  split; [exact Hact |]. split; [exists pre; exact Hev |].
  intros e Hin.
  assert (Hcase : is_action e = true -> In e (error_state f m)).
  { intros He. rewrite <- Hact. apply List.filter_In. split; assumption. }
  destruct e; try exact I; specialize (Hcase eq_refl);
    cbn in Hcase; intuition (try discriminate; try congruence).
Qed.

(** ** C3: the identifier is cached once *)

Lemma usage_events_quiet (f : SourceFile) (net : Net) (orgId : Value) :
  List.filter is_storage_set (usage_events f net orgId) = [] /\
  List.filter (is_fetch_of bootstrap_url) (usage_events f net orgId) = [].
Proof.
  unfold usage_events, badge_events.
  destruct (truthy orgId); [| split; reflexivity].
  destruct (coercible orgId); [| split; reflexivity].
  cbn [List.filter is_storage_set is_fetch_of].
  rewrite usage_url_not_bootstrap.
  destruct (net (usage_url orgId)) as [m | s [data | m]];
    repeat (match goal with |- context [if ?b then _ else _] => destruct b end);
    split; reflexivity.
Qed.

(** A cycle that finds a truthy identifier in the cache leaves the storage as
    it is, writes nothing and does not fetch the bootstrap document. *)
Lemma cycle_hit (f : SourceFile) (net : Net) (st : gmap string Value) :
  truthy (cached_orgId st) = true ->
  storage_after (fetchAndUpdateUsage f net st) = st /\
  List.filter is_storage_set (events (fetchAndUpdateUsage f net st)) = [] /\
  List.filter (is_fetch_of bootstrap_url) (events (fetchAndUpdateUsage f net st)) = [].
Proof.
  intros Hhit.
  rewrite (fetchAndUpdateUsage_run f net st st (cached_orgId st) [StorageGet "orgId"])
    by (apply getOrganizationId_hit; exact Hhit).
  unfold storage_after, events. cbn [fst snd].
  rewrite !List.filter_app.
  destruct (usage_events_quiet f net (cached_orgId st)) as [-> ->].
  repeat split.
Qed.

Lemma run_cycles_hit (f : SourceFile) (nets : list Net) (st : gmap string Value) :
  truthy (cached_orgId st) = true ->
  (run_cycles f nets st).1 = st /\
  List.filter is_storage_set (run_cycles f nets st).2 = [] /\
  List.filter (is_fetch_of bootstrap_url) (run_cycles f nets st).2 = [].
Proof.
  intros Hhit. induction nets as [| net rest IH].
  - repeat split.
  - cbn [run_cycles fst snd].
    destruct (cycle_hit f net st Hhit) as (Hst & Hset & Hfetch).
    rewrite Hst, !List.filter_app, Hset, Hfetch.
    destruct IH as (IH1 & IH2 & IH3). rewrite IH1, IH2, IH3. repeat split.
Qed.

(** C3. After a cycle that starts without a usable cached identifier, gets a
    success answer from the bootstrap endpoint and extracts a truthy
    identifier from it, the identifier has been written to the cache exactly
    once (the only storage write of the cycle); in all later cycles, whatever
    the network answers, nothing is written to the storage and the bootstrap
    document is not fetched, and every later call of [getOrganizationId]
    returns the cached identifier after one storage read and no fetch. *)
Theorem orgId_cached_once (f : SourceFile) (net : Net) (st : gmap string Value)
    (s : Z) (data : Value) :
  truthy (cached_orgId st) = false ->
  net bootstrap_url = Responded s (JsonBody data) ->
  ok (mkResponse s (JsonBody data)) = true ->
  truthy (bootstrap_orgId data) = true ->
  List.filter is_storage_set (events (fetchAndUpdateUsage f net st)) =
    [StorageSet "orgId" (bootstrap_orgId data)] /\
  storage_after (fetchAndUpdateUsage f net st) =
    <["orgId" := bootstrap_orgId data]> st /\
  forall (later : list Net) (net' : Net),
    List.filter is_storage_set
      (run_cycles f later (storage_after (fetchAndUpdateUsage f net st))).2 = [] /\
    List.filter (is_fetch_of bootstrap_url)
      (run_cycles f later (storage_after (fetchAndUpdateUsage f net st))).2 = [] /\
    getOrganizationId net'
      (run_cycles f later (storage_after (fetchAndUpdateUsage f net st))).1 =
      (Normal (bootstrap_orgId data),
       (run_cycles f later (storage_after (fetchAndUpdateUsage f net st))).1,
       [StorageGet "orgId"]).
Proof.
  intros Hmiss Hnet Hok Hid.
  assert (Hfirst : getOrganizationId net st =
            (Normal (bootstrap_orgId data), <["orgId" := bootstrap_orgId data]> st,
             [StorageGet "orgId"; Fetch bootstrap_url (Responded s (JsonBody data));
              StorageSet "orgId" (bootstrap_orgId data)])).
  { rewrite getOrganizationId_miss by assumption.
    unfold bootstrap_result. rewrite Hnet, Hok, Hid. reflexivity. }
  rewrite (fetchAndUpdateUsage_run f net st _ _ _ Hfirst).
  unfold storage_after at 1 2, events at 1. cbn [fst snd].
  rewrite List.filter_app.
  rewrite (proj1 (usage_events_quiet f net (bootstrap_orgId data))).
  split; [reflexivity |]. split; [reflexivity |].
  intros later net'.
  assert (Hhit : truthy (cached_orgId (<["orgId" := bootstrap_orgId data]> st)) = true)
    by (rewrite cached_orgId_insert; exact Hid).
  unfold storage_after. cbn [fst snd].
  destruct (run_cycles_hit f later _ Hhit) as (Hst & Hset & Hfetch).
  rewrite Hst, Hset, Hfetch. repeat split.
  rewrite getOrganizationId_hit by exact Hhit.
  rewrite cached_orgId_insert. reflexivity.
Qed.

(** ** C8: what [getOrganizationId] returns and writes *)

(** C8 (as amended). Every call of [getOrganizationId] returns normally
    (it never throws), and returns either [null] or a truthy value: the
    cached entry, or the [uuid] of the bootstrap document. When that value
    is a string, it is not empty. The only storage write it can make is of
    the truthy value it returns, under the key [orgId]; so a cache that holds
    no identifier or a truthy one still does afterwards. *)
Theorem getOrganizationId_returns (net : Net) (st : gmap string Value) :
  exists v,
    completion (getOrganizationId net st) = Normal v /\
    (v = VNull \/ truthy v = true) /\
    (v = VNull \/ v = cached_orgId st \/
     exists s data, net bootstrap_url = Responded s (JsonBody data) /\
                    v = bootstrap_orgId data) /\
    (forall s, v = VStr s -> s <> "") /\
    (forall k x, In (StorageSet k x) (events (getOrganizationId net st)) ->
       k = "orgId" /\ x = v /\ truthy x = true) /\
    (cache_ok st -> cache_ok (storage_after (getOrganizationId net st))).
Proof.
  assert (Hstr : forall v, truthy v = true -> forall s, v = VStr s -> s <> "").
  { intros v Hv s -> ->. discriminate. }
  destruct (truthy (cached_orgId st)) eqn:Hc.
  - rewrite getOrganizationId_hit by assumption.
    exists (cached_orgId st). unfold completion, events, storage_after. cbn [fst snd].
    split; [reflexivity |]. split; [right; exact Hc |].
    split; [right; left; reflexivity |]. split; [apply Hstr; exact Hc |].
    split; [| intros Hok; exact Hok].
    intros k x [Hin | []]; discriminate.
  - rewrite getOrganizationId_miss by assumption. unfold bootstrap_result.
    assert (Hnull : forall ev,
              (forall k x, In (StorageSet k x) ev -> False) ->
              exists v,
                completion (Normal VNull, st, ev) = Normal v /\
                (v = VNull \/ truthy v = true) /\
                (v = VNull \/ v = cached_orgId st \/
                 exists s data, net bootstrap_url = Responded s (JsonBody data) /\
                                v = bootstrap_orgId data) /\
                (forall s, v = VStr s -> s <> "") /\
                (forall k x, In (StorageSet k x) (events (Normal VNull, st, ev)) ->
                   k = "orgId" /\ x = v /\ truthy x = true) /\
                (cache_ok st -> cache_ok (storage_after (Normal VNull, st, ev)))).
    { intros ev Hev. exists VNull. unfold completion, events, storage_after.
      cbn [fst snd].
      split; [reflexivity |]. split; [left; reflexivity |].
      split; [left; reflexivity |]. split; [discriminate |].
      split; [| intros Hok; exact Hok].
      intros k x Hin. destruct (Hev k x Hin). }
    destruct (net bootstrap_url) as [m | s [data | m]] eqn:Hnet.
    + apply Hnull. intros k x [Hin | [Hin | []]]; discriminate.
    + destruct (ok (mkResponse s (JsonBody data))).
      * destruct (truthy (bootstrap_orgId data)) eqn:Hid.
        -- exists (bootstrap_orgId data).
           unfold completion, events, storage_after. cbn [fst snd].
           split; [reflexivity |]. split; [right; exact Hid |].
           split; [right; right; exists s, data; split; reflexivity |].
           split; [apply Hstr; exact Hid |]. split.
           ++ intros k x [Hin | [Hin | [Hin | []]]]; try discriminate.
              injection Hin as <- <-. repeat split. exact Hid.
           ++ intros _. right. rewrite cached_orgId_insert. exact Hid.
        -- apply Hnull. intros k x [Hin | [Hin | []]]; discriminate.
      * apply Hnull. intros k x [Hin | [Hin | []]]; discriminate.
    + destruct (ok (mkResponse s (BadBody m)));
        apply Hnull; intros k x [Hin | [Hin | []]]; discriminate.
Qed.

(** ** C9 and C10: the width of the bar and the end of the arc *)

Lemma rawBarWidth_Fin (percentage : Value) (q : Q) (size : Z) :
  ToNumber percentage = Fin q ->
  rawBarWidth percentage size =
    Fin (inject_Z (barMaxWidth size) * q / inject_Z 100).
Proof. intros Hq. unfold rawBarWidth. rewrite Hq. reflexivity. Qed.

Lemma barWidth_Fin (percentage : Value) (q : Q) (size : Z) :
  ToNumber percentage = Fin q ->
  barWidth percentage size =
    Fin (if Qlt_le_dec (inject_Z 1) (inject_Z (barMaxWidth size) * q / inject_Z 100)
         then inject_Z (barMaxWidth size) * q / inject_Z 100
         else inject_Z 1).
Proof.
  intros Hq. unfold barWidth. rewrite (rawBarWidth_Fin _ _ _ Hq). reflexivity.
Qed.





(** ** Beyond the claims: the success path, and a percentage that is no number *)

(** X1. In a cycle in which every step succeeds (an identifier is resolved
    that the URL template can convert, the usage fetch is answered with a
    success status, the body parses, [five_hour] is truthy, and the percentage
    and a truthy [resets_at] can be converted to primitives), the cycle returns
    normally and its calls to [chrome.action] are exactly the five of the
    success path of [updateBadge], for the [five_hour] entry of the usage
    document: the generated icon at the three sizes, the percentage badge, its
    two colours and the usage tooltip. *)
Theorem success_renders_usage (f : SourceFile) (net : Net) (st : gmap string Value)
    (s : Z) (data : Value) :
  truthy (resolved_orgId net st) = true ->
  coercible (resolved_orgId net st) = true ->
  net (usage_url (resolved_orgId net st)) = Responded s (JsonBody data) ->
  ok (mkResponse s (JsonBody data)) = true ->
  nullish data = false ->
  truthy (read data (Name "five_hour")) = true ->
  coercible (usage_percentage (read data (Name "five_hour"))) = true ->
  truthy (read (read data (Name "five_hour")) (Name "resets_at")) &&
  negb (coercible (read (read data (Name "five_hour")) (Name "resets_at"))) = false ->
  completion (fetchAndUpdateUsage f net st) = Normal tt /\
  actions (events (fetchAndUpdateUsage f net st)) =
    success_state f (read data (Name "five_hour")).
Proof.
  intros Hid Hc Hnet Hok Hn Hf Hp Hr.
  rewrite fetchAndUpdateUsage_eq. split; [reflexivity |].
  unfold events at 1. cbn [snd].
  rewrite actions_app, (proj1 (getOrganizationId_events net st)).
  unfold usage_events, badge_events.
  rewrite Hid, Hc, Hnet, Hok, Hn, Hf, Hp, Hr. reflexivity.
Qed.

(** X2. A percentage that can be converted to a primitive but does not read
    as a number (a non-numeric string, say) selects red in both versions, and
    the thermometer draws the frame only: [Math.max(1, NaN)] is [NaN], which
    fails [barWidth > 0]. [generateIcon] returns the pixels of that frame. *)
Theorem not_a_number_draws_no_bar (percentage : Value) (size : Z)
    (st : gmap string Value) :
  coercible percentage = true ->
  ToNumber percentage = NaN ->
  (0 < size)%Z ->
  fillColor percentage = "#ef4444" /\
  progressColor percentage = "#ef4444" /\
  barWidth percentage size = NaN /\
  ctx_drawn (thermometer percentage size) = frame_commands size /\
  generateIcon background_js percentage size st =
    (Normal (icon_pixels background_js percentage size), st, []).
Proof.
  intros Hc Hnan Hsize.
  assert (Hw : barWidth percentage size = NaN)
    by (unfold barWidth, rawBarWidth; rewrite Hnan; reflexivity).
  split; [unfold fillColor; rewrite Hnan; reflexivity |].
  split; [unfold progressColor; rewrite Hnan; reflexivity |].
  split; [exact Hw |]. split.
  - rewrite thermometer_drawn, Hw. cbn [num_gt num_lt numZ].
    rewrite andb_false_r. apply List.app_nil_r.
  - unfold generateIcon, to_number, bind, ret.
    destruct (Z.ltb_spec size 0); [lia |]. rewrite Hc.
    destruct (Z.eqb_spec size 0); [lia | reflexivity].
Qed.

End Properties.

(** * The properties at concrete inputs *)

(** C1 at 20, 65 and 90 percent. *)
Lemma generateIcon_color_thresholds_witness :
  (ToNumber (H := example_platform) (VNum (numZ 20)) = Fin 20 /\ (20 < 50)%Q /\
   fillColor (H := example_platform) (VNum (numZ 20)) = "#10b981") /\
  (ToNumber (H := example_platform) (VNum (numZ 65)) = Fin 65 /\
   ((50 <= 65)%Q /\ (65 < 80)%Q) /\
   fillColor (H := example_platform) (VNum (numZ 65)) = "#f59e0b") /\
  (ToNumber (H := example_platform) (VNum (numZ 90)) = Fin 90 /\ (80 <= 90)%Q /\
   fillColor (H := example_platform) (VNum (numZ 90)) = "#ef4444").
Proof.
  assert (H20 : (20 < 50)%Q) by reflexivity.
  assert (H65 : (50 <= 65)%Q /\ (65 < 80)%Q) by (split; [discriminate | reflexivity]).
  assert (H90 : (80 <= 90)%Q) by discriminate.
  split; [| split].
  - split; [reflexivity |]. split; [exact H20 |].
    exact (proj1 (proj2 (generateIcon_color_thresholds (H := example_platform)
                           (VNum (numZ 20)) 20 16 eq_refl)) H20).
  - split; [reflexivity |]. split; [exact H65 |].
    exact (proj1 (proj2 (proj2 (generateIcon_color_thresholds (H := example_platform)
                                  (VNum (numZ 65)) 65 32 eq_refl))) H65).
  - split; [reflexivity |]. split; [exact H90 |].
    exact (proj1 (proj2 (proj2 (proj2
             (generateIcon_color_thresholds (H := example_platform)
                (VNum (numZ 90)) 90 48 eq_refl)))) H90).
Defined.

(** C2 at a document without [five_hour], and at one whose [five_hour] has
    no [utilization]. *)
Lemma updateBadge_missing_field_witness :
  nullish usage_doc_without_five_hour = false /\
  truthy (read usage_doc_without_five_hour (Name "five_hour")) = false /\
  updateBadge (H := example_platform) part_000 usage_doc_without_five_hour ∅ =
    (Normal tt, ∅, error_state (H := example_platform) part_000 "No data") /\
  truthy (read usage_doc_without_utilization (Name "five_hour")) = true /\
  read (read usage_doc_without_utilization (Name "five_hour")) (Name "utilization")
    = VUndefined /\
  In (SetBadgeText "0%")
     (events (updateBadge (H := example_platform) part_000
                usage_doc_without_utilization ∅)).
Proof.
  split; [reflexivity |]. split; [reflexivity |]. split.
  - exact (proj1 (proj2 (updateBadge_missing_field (H := example_platform) part_000
                           usage_doc_without_five_hour ∅)) eq_refl eq_refl).
  - split; [reflexivity |]. split; [reflexivity |].
    exact (proj1 (proj2 (proj2 (proj2 (proj2 (updateBadge_missing_field
                                                (H := example_platform) part_000
                                                usage_doc_without_utilization ∅))
                                  eq_refl eq_refl eq_refl)))).
Defined.

(** C2 as stated fails: on a document whose [five_hour] entry has no
    [utilization], [updateBadge] does not render the error state; it renders
    the default percentage, [0%]. *)
Lemma updateBadge_renders_default_percentage :
  read (read usage_doc_without_utilization (Name "five_hour")) (Name "utilization")
    = VUndefined /\
  In (SetBadgeText "0%")
     (events (updateBadge (H := example_platform) background_js
                usage_doc_without_utilization ∅)) /\
  ~ (exists m,
       actions (events (updateBadge (H := example_platform) background_js
                          usage_doc_without_utilization ∅)) =
       error_state (H := example_platform) background_js m).
Proof.
  split; [reflexivity |]. split.
  - right. left. reflexivity.
  - intros [m Hm]. apply (f_equal (@length Event)) in Hm. discriminate Hm.
Qed.

(** C3 on a healthy network, from an empty storage. *)
Lemma orgId_cached_once_witness :
  truthy (cached_orgId ∅) = false /\
  healthy_net bootstrap_url = Responded 200 (JsonBody (bootstrap_doc (VStr "org-1"))) /\
  ok (mkResponse 200 (JsonBody (bootstrap_doc (VStr "org-1")))) = true /\
  truthy (bootstrap_orgId (bootstrap_doc (VStr "org-1"))) = true /\
  List.filter is_storage_set
    (events (fetchAndUpdateUsage (H := example_platform) background_js healthy_net ∅)) =
    [StorageSet "orgId" (VStr "org-1")] /\
  storage_after
    (fetchAndUpdateUsage (H := example_platform) background_js healthy_net ∅) =
    cached_storage /\
  getOrganizationId (H := example_platform) (fun _ => Rejected "Failed to fetch")
    (run_cycles (H := example_platform) background_js
       [healthy_net; fun _ => Rejected "Failed to fetch"]
       (storage_after
          (fetchAndUpdateUsage (H := example_platform) background_js healthy_net ∅))).1 =
    (Normal (VStr "org-1"),
     (run_cycles (H := example_platform) background_js
        [healthy_net; fun _ => Rejected "Failed to fetch"]
        (storage_after
           (fetchAndUpdateUsage (H := example_platform) background_js healthy_net ∅))).1,
     [StorageGet "orgId"]).
Proof.
  pose proof (orgId_cached_once (H := example_platform) background_js healthy_net ∅
                200 (bootstrap_doc (VStr "org-1")) eq_refl eq_refl eq_refl eq_refl)
    as (Hset & Hst & Hlater).
  split; [reflexivity |]. split; [reflexivity |]. split; [reflexivity |].
  split; [reflexivity |]. split; [exact Hset |]. split; [exact Hst |].
  exact (proj2 (proj2 (Hlater [healthy_net; fun _ => Rejected "Failed to fetch"]
                         (fun _ => Rejected "Failed to fetch")))).
Defined.

(** C4 when the bootstrap endpoint answers 503, and when the usage endpoint
    answers 403. *)
Lemma non_success_status_error_state_witness :
  existsb non_success
    (events (fetchAndUpdateUsage (H := example_platform) background_js
               (example_net (Responded 503 (BadBody "")) (Responded 200 (JsonBody usage_doc)))
               ∅)) = true /\
  completion (fetchAndUpdateUsage (H := example_platform) background_js
               (example_net (Responded 503 (BadBody "")) (Responded 200 (JsonBody usage_doc)))
               ∅) = Normal tt /\
  existsb non_success
    (events (fetchAndUpdateUsage (H := example_platform) part_000
               (example_net (Rejected "") (Responded 403 (JsonBody VNull)))
               cached_storage)) = true /\
  completion (fetchAndUpdateUsage (H := example_platform) part_000
               (example_net (Rejected "") (Responded 403 (JsonBody VNull)))
               cached_storage) = Normal tt.
Proof.
  split; [reflexivity |]. split.
  - exact (proj1 (non_success_status_error_state (H := example_platform) background_js
                    (example_net (Responded 503 (BadBody ""))
                       (Responded 200 (JsonBody usage_doc))) ∅ eq_refl)).
  - split; [reflexivity |].
    exact (proj1 (non_success_status_error_state (H := example_platform) part_000
                    (example_net (Rejected "") (Responded 403 (JsonBody VNull)))
                    cached_storage eq_refl)).
Defined.

(** C6 as stated fails: the tooltip is not the message itself, it is the
    message after a fixed prefix. *)
Lemma updateBadgeError_title_is_prefixed :
  In (SetTitle ("Make sure you are logged in to Claude.ai!" +:+ nl +:+
                "Error: No data"))
     (events (updateBadgeError (H := example_platform) background_js "No data" ∅)) /\
  ~ In (SetTitle "No data")
       (events (updateBadgeError (H := example_platform) background_js "No data" ∅)) /\
  ~ In (SetTitle "No data")
       (events (updateBadgeError (H := example_platform) part_000 "No data" ∅)).
Proof.
  split; [right; right; left; reflexivity |].
  split; intros [Hin | [Hin | [Hin | []]]]; discriminate Hin.
Qed.

(** C7 when the usage body does not parse, and when the usage document has
    no [five_hour] entry. *)
Lemma failure_renders_error_and_aborts_witness :
  step_fails (H := example_platform)
    (example_net (Rejected "") (Responded 200 (BadBody "Unexpected end of JSON input")))
    (resolved_orgId (H := example_platform)
       (example_net (Rejected "") (Responded 200 (BadBody "Unexpected end of JSON input")))
       cached_storage) /\
  completion
    (fetchAndUpdateUsage (H := example_platform) background_js
       (example_net (Rejected "") (Responded 200 (BadBody "Unexpected end of JSON input")))
       cached_storage) = Normal tt /\
  step_fails (H := example_platform)
    (example_net (Rejected "") (Responded 200 (JsonBody usage_doc_without_five_hour)))
    (resolved_orgId (H := example_platform)
       (example_net (Rejected "") (Responded 200 (JsonBody usage_doc_without_five_hour)))
       cached_storage) /\
  completion
    (fetchAndUpdateUsage (H := example_platform) part_000
       (example_net (Rejected "") (Responded 200 (JsonBody usage_doc_without_five_hour)))
       cached_storage) = Normal tt.
Proof.
  pose proof (usage_parse_fails (H := example_platform)
                (example_net (Rejected "")
                   (Responded 200 (BadBody "Unexpected end of JSON input")))
                (resolved_orgId (H := example_platform)
                   (example_net (Rejected "")
                      (Responded 200 (BadBody "Unexpected end of JSON input")))
                   cached_storage)
                200 "Unexpected end of JSON input" eq_refl) as Hparse.
  pose proof (field_extraction_fails (H := example_platform)
                (example_net (Rejected "")
                   (Responded 200 (JsonBody usage_doc_without_five_hour)))
                (resolved_orgId (H := example_platform)
                   (example_net (Rejected "")
                      (Responded 200 (JsonBody usage_doc_without_five_hour)))
                   cached_storage)
                200 usage_doc_without_five_hour eq_refl (or_intror eq_refl)) as Hfield.
  split; [exact Hparse |]. split.
  - exact (proj1 (failure_renders_error_and_aborts (H := example_platform)
                    background_js _ cached_storage Hparse)).
  - split; [exact Hfield |].
    exact (proj1 (failure_renders_error_and_aborts (H := example_platform)
                    part_000 _ cached_storage Hfield)).
Defined.

(** C8 as stated fails: when the bootstrap document carries a number as
    [uuid], the value returned (and cached) is that number, not a string. *)
Lemma getOrganizationId_returns_number :
  getOrganizationId (H := example_platform)
    (example_net (Responded 200 (JsonBody (bootstrap_doc (VNum (numZ 42)))))
                 (Rejected "")) ∅ =
    (Normal (VNum (numZ 42)), {["orgId" := VNum (numZ 42)]},
     [StorageGet "orgId";
      Fetch bootstrap_url (Responded 200 (JsonBody (bootstrap_doc (VNum (numZ 42)))));
      StorageSet "orgId" (VNum (numZ 42))]) /\
  VNum (numZ 42) <> VNull /\
  ~ (exists s, VNum (numZ 42) = VStr s).
Proof.
  split; [reflexivity |]. split; [discriminate |].
  intros [s Hs]. discriminate Hs.
Qed.



(** X1 on a healthy network with the identifier cached: the badge reads 22%. *)
Lemma success_renders_usage_witness :
  truthy (resolved_orgId (H := example_platform) healthy_net cached_storage) = true /\
  coercible (resolved_orgId (H := example_platform) healthy_net cached_storage) = true /\
  healthy_net
    (usage_url (H := example_platform)
       (resolved_orgId (H := example_platform) healthy_net cached_storage)) =
    Responded 200 (JsonBody usage_doc) /\
  coercible (usage_percentage (read usage_doc (Name "five_hour"))) = true /\
  In (SetBadgeText "22%")
     (actions (events (fetchAndUpdateUsage (H := example_platform) background_js
                         healthy_net cached_storage))).
Proof.
  assert (Hid : truthy (resolved_orgId (H := example_platform) healthy_net
                          cached_storage) = true) by reflexivity.
  assert (Hc : coercible (resolved_orgId (H := example_platform) healthy_net
                            cached_storage) = true) by reflexivity.
  assert (Hnet : healthy_net
                   (usage_url (H := example_platform)
                      (resolved_orgId (H := example_platform) healthy_net
                         cached_storage)) =
                 Responded 200 (JsonBody usage_doc)) by reflexivity.
  assert (Hok : ok (mkResponse 200 (JsonBody usage_doc)) = true) by reflexivity.
  assert (Hn : nullish usage_doc = false) by reflexivity.
  assert (Hf : truthy (read usage_doc (Name "five_hour")) = true) by reflexivity.
  assert (Hp : coercible (usage_percentage (read usage_doc (Name "five_hour"))) = true)
    by reflexivity.
  assert (Hr : truthy (read (read usage_doc (Name "five_hour")) (Name "resets_at")) &&
               negb (coercible (read (read usage_doc (Name "five_hour"))
                                  (Name "resets_at"))) = false) by reflexivity.
  split; [exact Hid |]. split; [exact Hc |]. split; [exact Hnet |].
  split; [exact Hp |].
  rewrite (proj2 (success_renders_usage (H := example_platform) background_js
                    healthy_net cached_storage 200 usage_doc
                    Hid Hc Hnet Hok Hn Hf Hp Hr)).
  right. left. reflexivity.
Defined.

(** X2 at the string [n/a]. *)
Lemma not_a_number_draws_no_bar_witness :
  coercible (VStr "n/a") = true /\
  ToNumber (H := example_platform) (VStr "n/a") = NaN /\
  (0 < 16)%Z /\
  fillColor (H := example_platform) (VStr "n/a") = "#ef4444" /\
  ctx_drawn (thermometer (H := example_platform) (VStr "n/a") 16) = frame_commands 16.
Proof.
  assert (Hsize : (0 < 16)%Z) by reflexivity.
  destruct (not_a_number_draws_no_bar (H := example_platform) (VStr "n/a") 16 ∅
              eq_refl eq_refl Hsize) as (Hcolor & _ & _ & Hframe & _).
  split; [reflexivity |]. split; [reflexivity |]. split; [exact Hsize |].
  split; [exact Hcolor | exact Hframe].
Defined.

(** * Further properties of the cycle *)

Section CycleProperties.

Context `{Platform}.

Lemma cycle_actions (f : SourceFile) (net : Net) (st : gmap string Value) :
  actions (events (fetchAndUpdateUsage f net st)) =
    actions (usage_events f net (resolved_orgId net st)).
Proof.
  rewrite fetchAndUpdateUsage_eq. unfold events at 1. cbn [snd].
  rewrite actions_app, (proj1 (getOrganizationId_events net st)). reflexivity.
Qed.

Lemma actions_badge_events (f : SourceFile) (data : Value) :
  actions (badge_events f data) = badge_events f data.
Proof.
  unfold badge_events.
  repeat (match goal with |- context [if ?b then _ else _] => destruct b end);
    reflexivity.
Qed.

(** X3. Every cycle, whatever the storage holds and the network answers,
    returns normally, and its calls to [chrome.action] are one of three
    sequences: the three of the error state for some message; the five of the
    success path for a truthy [five_hour] entry; or, when [new Date] throws on
    a truthy [resets_at] that cannot be converted to a primitive, the first
    four of the success path (icon, badge text and its two colours) followed
    by the three of the error state, which replace the icon and clear the
    badge. *)
Theorem cycle_action_calls (f : SourceFile) (net : Net) (st : gmap string Value) :
  completion (fetchAndUpdateUsage f net st) = Normal tt /\
  ((exists m, actions (events (fetchAndUpdateUsage f net st)) = error_state f m) \/
   (exists fiveHour,
      truthy fiveHour = true /\
      actions (events (fetchAndUpdateUsage f net st)) = success_state f fiveHour) \/
   (exists fiveHour,
      truthy fiveHour = true /\
      truthy (read fiveHour (Name "resets_at")) = true /\
      coercible (read fiveHour (Name "resets_at")) = false /\
      actions (events (fetchAndUpdateUsage f net st)) =
        firstn 4 (success_state f fiveHour) ++ error_state f cannot_convert)).
Proof.
  split; [rewrite fetchAndUpdateUsage_eq; reflexivity |].
  rewrite cycle_actions. unfold usage_events.
  destruct (truthy (resolved_orgId net st)); [| left; eexists; reflexivity].
  destruct (coercible (resolved_orgId net st)); [| left; eexists; reflexivity].
  change (actions (?e :: ?l)) with (actions l).
  destruct (net (usage_url (resolved_orgId net st))) as [m | s [data | m]];
    try (left; eexists; reflexivity).
  - destruct (ok (mkResponse s (JsonBody data))); [| left; eexists; reflexivity].
    rewrite actions_badge_events. unfold badge_events.
    destruct (nullish data); [left; eexists; reflexivity |].
    destruct (truthy (read data (Name "five_hour"))) eqn:Hf;
      [| left; eexists; reflexivity].
    destruct (coercible (usage_percentage (read data (Name "five_hour"))));
      [| left; eexists; reflexivity].
    destruct (truthy (read (read data (Name "five_hour")) (Name "resets_at")) &&
              negb (coercible (read (read data (Name "five_hour"))
                                 (Name "resets_at")))) eqn:Hr.
    + right. right. exists (read data (Name "five_hour")).
      apply andb_prop in Hr. destruct Hr as [Ht Hc].
      apply negb_true_iff in Hc. repeat split; assumption.
    + right. left. exists (read data (Name "five_hour")). split; [exact Hf | reflexivity].
  - destruct (ok (mkResponse s (BadBody m))); left; eexists; reflexivity.
Qed.

(** The fetches of the identifier resolution: the bootstrap document, once,
    when the cache holds no truthy identifier. *)
Lemma getOrganizationId_fetches (net : Net) (st : gmap string Value) :
  List.filter is_fetch (events (getOrganizationId net st)) =
    if truthy (cached_orgId st) then []
    else [Fetch bootstrap_url (net bootstrap_url)].
Proof.
  destruct (truthy (cached_orgId st)) eqn:Hc.
  - rewrite getOrganizationId_hit by assumption. reflexivity.
  - rewrite getOrganizationId_miss by assumption. unfold bootstrap_result.
    destruct (net bootstrap_url) as [m | s [data | m]];
      repeat (match goal with |- context [if ?b then _ else _] => destruct b end);
      reflexivity.
Qed.

Lemma usage_events_fetches (f : SourceFile) (net : Net) (orgId : Value) :
  List.filter is_fetch (usage_events f net orgId) =
    if truthy orgId && coercible orgId
    then [Fetch (usage_url orgId) (net (usage_url orgId))] else [].
Proof.
  unfold usage_events, badge_events. destruct (truthy orgId); [| reflexivity].
  destruct (coercible orgId); [| reflexivity].
  cbn [List.filter is_fetch andb]. f_equal.
  destruct (net (usage_url orgId)) as [m | s [data | m]];
    repeat (match goal with |- context [if ?b then _ else _] => destruct b end);
    reflexivity.
Qed.

(** X4. A cycle never retries: it fetches the bootstrap document once when
    the cache holds no truthy identifier and not at all otherwise, then the
    usage document once when an identifier was resolved that the URL template
    can convert, and not at all otherwise (the template throws on an
    identifier that is an object with an own [toString]); these are all its
    fetches, so there are at most two. *)
Theorem cycle_fetches (f : SourceFile) (net : Net) (st : gmap string Value) :
  List.filter is_fetch (events (fetchAndUpdateUsage f net st)) =
    (if truthy (cached_orgId st) then []
     else [Fetch bootstrap_url (net bootstrap_url)]) ++
    (if truthy (resolved_orgId net st) && coercible (resolved_orgId net st)
     then [Fetch (usage_url (resolved_orgId net st))
             (net (usage_url (resolved_orgId net st)))]
     else []) /\
  length (List.filter is_fetch (events (fetchAndUpdateUsage f net st))) <= 2.
Proof.
  assert (Heq : List.filter is_fetch (events (fetchAndUpdateUsage f net st)) =
            (if truthy (cached_orgId st) then []
             else [Fetch bootstrap_url (net bootstrap_url)]) ++
            (if truthy (resolved_orgId net st) && coercible (resolved_orgId net st)
             then [Fetch (usage_url (resolved_orgId net st))
                     (net (usage_url (resolved_orgId net st)))]
             else [])).
  { rewrite fetchAndUpdateUsage_eq. unfold events at 1. cbn [snd].
    rewrite List.filter_app, getOrganizationId_fetches, usage_events_fetches.
    reflexivity. }
  split; [exact Heq |]. rewrite Heq.
  destruct (truthy (cached_orgId st)),
    (truthy (resolved_orgId net st) && coercible (resolved_orgId net st));
    cbn; lia.
Qed.

(** What the identifier resolution gives, from the cache and the bootstrap
    answer. *)
Lemma resolved_orgId_eq (net : Net) (st : gmap string Value) :
  resolved_orgId net st =
    if truthy (cached_orgId st) then cached_orgId st
    else match net bootstrap_url with
         | Responded s (JsonBody data) =>
             if ok (mkResponse s (JsonBody data)) && truthy (bootstrap_orgId data)
             then bootstrap_orgId data else VNull
         | _ => VNull
         end.
Proof.
  unfold resolved_orgId.
  destruct (truthy (cached_orgId st)) eqn:Hc.
  - rewrite getOrganizationId_hit by assumption. reflexivity.
  - rewrite getOrganizationId_miss by assumption. unfold bootstrap_result.
    destruct (net bootstrap_url) as [m | s [data | m]]; try reflexivity.
    + destruct (ok (mkResponse s (JsonBody data)));
        destruct (truthy (bootstrap_orgId data)); reflexivity.
    + destruct (ok (mkResponse s (BadBody m))); reflexivity.
Qed.

(** X5. The message of the error state, failure by failure. When no
    identifier is resolved the message is [No org ID], whatever went wrong
    with the bootstrap fetch (its own error message is dropped). With an
    identifier that the URL template cannot convert, the message is that of
    the TypeError. With an identifier [orgId] that it can convert: a rejected
    usage fetch shows the message of the rejection, a failure status [s] shows
    [HTTP s], a body that does not parse shows the message of the parser, a
    [null] document shows the message of the TypeError, a document without a
    truthy [five_hour] shows [No data], and a percentage that cannot be
    converted shows the message of the TypeError. *)
Theorem cycle_error_message (f : SourceFile) (net : Net) (st : gmap string Value) :
  (truthy (resolved_orgId net st) = false ->
   actions (events (fetchAndUpdateUsage f net st)) = error_state f "No org ID") /\
  (truthy (cached_orgId st) = false ->
   (forall s data,
      net bootstrap_url = Responded s (JsonBody data) ->
      ok (mkResponse s (JsonBody data)) && truthy (bootstrap_orgId data) = false) ->
   actions (events (fetchAndUpdateUsage f net st)) = error_state f "No org ID") /\
  (truthy (resolved_orgId net st) = true ->
   coercible (resolved_orgId net st) = false ->
   actions (events (fetchAndUpdateUsage f net st)) = error_state f cannot_convert) /\
  (truthy (resolved_orgId net st) = true ->
   coercible (resolved_orgId net st) = true ->
   (forall m,
      net (usage_url (resolved_orgId net st)) = Rejected m ->
      actions (events (fetchAndUpdateUsage f net st)) = error_state f m) /\
   (forall s b,
      net (usage_url (resolved_orgId net st)) = Responded s b ->
      ok (mkResponse s b) = false ->
      actions (events (fetchAndUpdateUsage f net st)) =
        error_state f ("HTTP " +:+ NumberToString (numZ s))) /\
   (forall s m,
      net (usage_url (resolved_orgId net st)) = Responded s (BadBody m) ->
      ok (mkResponse s (BadBody m)) = true ->
      actions (events (fetchAndUpdateUsage f net st)) = error_state f m) /\
   (forall s data,
      net (usage_url (resolved_orgId net st)) = Responded s (JsonBody data) ->
      ok (mkResponse s (JsonBody data)) = true ->
      (nullish data = true ->
       actions (events (fetchAndUpdateUsage f net st)) =
         error_state f (type_error data "five_hour")) /\
      (nullish data = false ->
       truthy (read data (Name "five_hour")) = false ->
       actions (events (fetchAndUpdateUsage f net st)) = error_state f "No data") /\
      (nullish data = false ->
       truthy (read data (Name "five_hour")) = true ->
       coercible (usage_percentage (read data (Name "five_hour"))) = false ->
       actions (events (fetchAndUpdateUsage f net st)) =
         error_state f cannot_convert))).
Proof.
  rewrite cycle_actions.
  assert (Hnone : truthy (resolved_orgId net st) = false ->
            actions (usage_events f net (resolved_orgId net st)) =
              error_state f "No org ID").
  { intros Hid. unfold usage_events. rewrite Hid. reflexivity. }
  split; [exact Hnone |]. split; [| split].
  - intros Hc Hboot. apply Hnone. rewrite resolved_orgId_eq, Hc.
    destruct (net bootstrap_url) as [m | s [data | m]]; try reflexivity.
    rewrite (Hboot s data eq_refl). reflexivity.
  - intros Hid Hc. unfold usage_events. rewrite Hid, Hc. reflexivity.
  - intros Hid Hc. unfold usage_events. rewrite Hid, Hc.
    split; [| split; [| split]].
    + intros m Hnet. rewrite Hnet. reflexivity.
    + intros s b Hnet Hok. rewrite Hnet, Hok. reflexivity.
    + intros s m Hnet Hok. rewrite Hnet, Hok. reflexivity.
    + intros s data Hnet Hok. rewrite Hnet, Hok. unfold badge_events.
      split; [| split].
      * intros Hn. rewrite Hn. reflexivity.
      * intros Hn Hf. rewrite Hn, Hf. reflexivity.
      * intros Hn Hf Hp. rewrite Hn, Hf, Hp. reflexivity.
Qed.

(** X6. Only the first membership of the bootstrap document is read: the
    identifier is the [uuid] of the [organization] of [memberships[0]],
    whatever follows it in the list, and it is [undefined] when the list is
    empty. On a cache miss answered with such a document without
    memberships, [getOrganizationId] returns [null] and caches nothing, and
    the cycle shows [No org ID]. *)
Theorem bootstrap_reads_first_membership (f : SourceFile) (net : Net)
    (st : gmap string Value) (s : Z) (more more' : list (string * Value)) :
  (forall first rest,
     bootstrap_orgId
       (VObj (("account", VObj (("memberships", VArr (first :: rest)) :: more'))
              :: more)) =
     opt_chain (opt_chain first (Name "organization")) (Name "uuid")) /\
  bootstrap_orgId
    (VObj (("account", VObj (("memberships", VArr []) :: more')) :: more)) =
    VUndefined /\
  (truthy (cached_orgId st) = false ->
   net bootstrap_url =
     Responded s
       (JsonBody
          (VObj (("account", VObj (("memberships", VArr []) :: more')) :: more))) ->
   completion (getOrganizationId net st) = Normal VNull /\
   storage_after (fetchAndUpdateUsage f net st) = st /\
   actions (events (fetchAndUpdateUsage f net st)) = error_state f "No org ID").
Proof.
  split; [intros first rest; reflexivity |]. split; [reflexivity |].
  intros Hc Hnet.
  assert (Hid : resolved_orgId net st = VNull).
  { rewrite resolved_orgId_eq, Hc, Hnet. cbn [bootstrap_orgId].
    rewrite andb_false_r. reflexivity. }
  assert (Hg : getOrganizationId net st =
            (Normal VNull, st,
             [StorageGet "orgId"; Fetch bootstrap_url (net bootstrap_url)])).
  { rewrite getOrganizationId_miss by assumption. unfold bootstrap_result.
    rewrite Hnet.
    destruct (ok _); reflexivity. }
  split; [rewrite Hg; reflexivity |]. split.
  - rewrite (fetchAndUpdateUsage_run f net st _ _ _ Hg). reflexivity.
  - rewrite cycle_actions, Hid. reflexivity.
Qed.

(** ** The geometry of the two icons *)

Lemma raw_width_mono (b q1 q2 : Q) :
  (0 <= b)%Q -> (q1 <= q2)%Q ->
  (b * q1 / inject_Z 100 <= b * q2 / inject_Z 100)%Q.
Proof.
  intros Hb Hq. unfold Qdiv.
  apply Qmult_le_compat_r; [| discriminate].
  rewrite !(Qmult_comm b). apply Qmult_le_compat_r; assumption.
Qed.

Lemma raw_width_full (b : Q) : (b * 100 / inject_Z 100 == b)%Q.
Proof. unfold inject_Z. field. Qed.

(** X7. In the thermometer variant, for a percentage that reads as a number
    between 0 and 100 and a size whose inner width [barMaxWidth] is at least
    1, the bar is between 1 pixel and [barMaxWidth] wide, so it ends at or
    before the left edge of the right border of the frame; at 100 percent it
    is exactly [barMaxWidth] wide. *)
Theorem bar_within_frame (percentage : Value) (q : Q) (size : Z) :
  ToNumber percentage = Fin q ->
  (0 <= q)%Q -> (q <= 100)%Q ->
  (1 <= barMaxWidth size)%Z ->
  exists w : Q,
    barWidth percentage size = Fin w /\
    (1 <= w)%Q /\
    (w <= inject_Z (barMaxWidth size))%Q /\
    (inject_Z (barX size) + w <=
       inject_Z (frameX size + frameWidth size - borderWidth size))%Q /\
    ((q == 100)%Q -> (w == inject_Z (barMaxWidth size))%Q).
Proof.
  intros Hq Hq0 Hq100 Hmax.
  pose proof (barWidth_Fin percentage q size Hq) as Hw.
  set (b := inject_Z (barMaxWidth size)) in *.
  set (raw := (b * q / inject_Z 100)%Q) in *.
  assert (Hb1 : (inject_Z 1 <= b)%Q) by (subst b; rewrite <- Zle_Qle; exact Hmax).
  assert (Hb0 : (0 <= b)%Q) by (eapply Qle_trans; [| exact Hb1]; discriminate).
  assert (Hraw : (raw <= b)%Q).
  { subst raw. rewrite <- (raw_width_full b) at 2.
    apply raw_width_mono; assumption. }
  set (w := if Qlt_le_dec (inject_Z 1) raw then raw else inject_Z 1) in *.
  assert (Hw1 : (1 <= w)%Q).
  { subst w. destruct (Qlt_le_dec (inject_Z 1) raw) as [Hlt | Hle];
      [apply Qlt_le_weak; exact Hlt | apply Qle_refl]. }
  assert (Hwb : (w <= b)%Q).
  { subst w. destruct (Qlt_le_dec (inject_Z 1) raw); assumption. }
  exists w. split; [exact Hw |]. split; [exact Hw1 |]. split; [exact Hwb |]. split.
  - replace (frameX size + frameWidth size - borderWidth size)%Z
      with (barX size + barMaxWidth size)%Z
      by (unfold barX, barMaxWidth; lia).
    rewrite inject_Z_plus. fold b.
    apply Qplus_le_r. exact Hwb.
  - intros H100. subst w.
    assert (Hfull : (raw == b)%Q)
      by (subst raw; rewrite H100; apply raw_width_full).
    destruct (Qlt_le_dec (inject_Z 1) raw) as [Hlt | Hle]; [exact Hfull |].
    apply Qle_antisym; [exact Hb1 |]. rewrite <- Hfull. exact Hle.
Qed.

(** X8. In the thermometer variant the width of the bar never decreases as
    the percentage grows (for a size with [barMaxWidth >= 0]), and it stays at
    its floor of 1 pixel for every percentage up to [100 / barMaxWidth]:
    negative and small readings all draw the same 1-pixel bar. *)
Theorem barWidth_monotone (p1 p2 : Value) (q1 q2 : Q) (size : Z) :
  ToNumber p1 = Fin q1 ->
  ToNumber p2 = Fin q2 ->
  (0 <= barMaxWidth size)%Z ->
  (q1 <= q2)%Q ->
  exists w1 w2 : Q,
    barWidth p1 size = Fin w1 /\
    barWidth p2 size = Fin w2 /\
    (w1 <= w2)%Q /\
    ((inject_Z (barMaxWidth size) * q2 <= 100)%Q -> w1 = 1%Q /\ w2 = 1%Q).
Proof.
  intros H1 H2 Hmax Hle.
  pose proof (barWidth_Fin p1 q1 size H1) as Hw1.
  pose proof (barWidth_Fin p2 q2 size H2) as Hw2.
  set (b := inject_Z (barMaxWidth size)) in *.
  assert (Hb0 : (0 <= b)%Q) by (subst b; rewrite <- (Zle_Qle 0); exact Hmax).
  pose proof (raw_width_mono b q1 q2 Hb0 Hle) as Hraw.
  set (raw1 := (b * q1 / inject_Z 100)%Q) in *.
  set (raw2 := (b * q2 / inject_Z 100)%Q) in *.
  eexists _, _. split; [exact Hw1 |]. split; [exact Hw2 |]. split.
  - destruct (Qlt_le_dec (inject_Z 1) raw1) as [Hlt1 | Hle1];
      destruct (Qlt_le_dec (inject_Z 1) raw2) as [Hlt2 | Hle2].
    + exact Hraw.
    + exfalso. apply (Qlt_not_le _ _ Hlt1). eapply Qle_trans; eassumption.
    + apply Qlt_le_weak. exact Hlt2.
    + apply Qle_refl.
  - intros Hsmall.
    assert (Hraw2 : (raw2 <= inject_Z 1)%Q).
    { subst raw2. apply Qle_shift_div_r; [reflexivity |]. exact Hsmall. }
    destruct (Qlt_le_dec (inject_Z 1) raw1) as [Hlt1 | Hle1];
      destruct (Qlt_le_dec (inject_Z 1) raw2) as [Hlt2 | Hle2];
      try (split; reflexivity); exfalso.
    + apply (Qlt_not_le _ _ Hlt2 Hraw2).
    + apply (Qlt_not_le _ _ Hlt1). eapply Qle_trans; eassumption.
    + apply (Qlt_not_le _ _ Hlt2 Hraw2).
Qed.

(** X9. In the circular variant the progress arc sweeps [q / 100] of a full
    turn from [startAngle]: nothing at 0 percent, and for a percentage between
    0 and 100 an angle between none and one full turn. *)
Theorem arc_sweep (percentage : Value) (q : Q) :
  ToNumber percentage = Fin q ->
  exists a0 a turn : Q,
    startAngle = Fin a0 /\
    endAngle percentage = Fin a /\
    fullCircle = Fin turn /\
    (a - a0 == q / 100 * turn)%Q /\
    ((q == 0)%Q -> (a == a0)%Q) /\
    ((0 <= q)%Q -> (q <= 100)%Q -> (a0 <= a)%Q /\ (a <= a0 + turn)%Q).
Proof.
  intros Hq. unfold endAngle, fullCircle, startAngle, Math_PI. rewrite Hq.
  cbn [num_add num_mul num_div num_neg numZ].
  eexists _, _, _. split; [reflexivity |]. split; [reflexivity |].
  split; [reflexivity |]. unfold inject_Z.
  split; [| split].
  - field.
  - intros ->. field.
  - intros H0 H100. unfold Qdiv. change (/ (100 # 1))%Q with (1 # 100)%Q.
    split.
    + rewrite <- (Qplus_0_r (- _ * _)) at 1. apply Qplus_le_r.
      repeat apply Qmult_le_0_compat; try discriminate. exact H0.
    + apply Qplus_le_r. apply Qmult_le_compat_r; [| discriminate]. lra.
Qed.

End CycleProperties.

(** * Properties of the timer driver and the listeners *)

Section DriverProperties.

Context `{Platform}.

Lemma lift_cycle (f : SourceFile) (net : Net) (w : Worker) :
  lift (fetchAndUpdateUsage f net) w =
    (Normal tt,
     mkWorker (storage_after (fetchAndUpdateUsage f net (local_storage w))) (alarms w),
     List.map InCycle (events (fetchAndUpdateUsage f net (local_storage w)))).
Proof.
  unfold lift. rewrite fetchAndUpdateUsage_eq. reflexivity.
Qed.

Lemma initializeMonitoring_run (f : SourceFile) (net : Net) (w : Worker) :
  initializeMonitoring f net w =
    (Normal tt,
     mkWorker (storage_after (fetchAndUpdateUsage f net (local_storage w)))
       (<[ALARM_NAME := POLL_INTERVAL_MINUTES]> (delete ALARM_NAME (alarms w))),
     AlarmsClear ALARM_NAME :: AlarmsCreate ALARM_NAME POLL_INTERVAL_MINUTES ::
     List.map InCycle (events (fetchAndUpdateUsage f net (local_storage w)))).
Proof.
  unfold initializeMonitoring, wbind, alarms_clear, alarms_create.
  rewrite lift_cycle. reflexivity.
Qed.

(** Every listener, case by case. *)
Lemma dispatch_cases (f : SourceFile) (ev : BrowserEvent) (net : Net) (w : Worker) :
  dispatch f ev net w =
    match ev with
    | Installed | Startup =>
        (Normal tt,
         mkWorker (storage_after (fetchAndUpdateUsage f net (local_storage w)))
           (<[ALARM_NAME := POLL_INTERVAL_MINUTES]> (delete ALARM_NAME (alarms w))),
         AlarmsClear ALARM_NAME :: AlarmsCreate ALARM_NAME POLL_INTERVAL_MINUTES ::
         List.map InCycle (events (fetchAndUpdateUsage f net (local_storage w))))
    | Clicked => (Normal tt, w, [TabsCreate "https://claude.ai/settings/usage"])
    | AlarmFired name =>
        if match f with
           | background_js => true
           | part_000 => String.eqb name ALARM_NAME
           end
        then (Normal tt,
              mkWorker (storage_after (fetchAndUpdateUsage f net (local_storage w)))
                (alarms w),
              List.map InCycle (events (fetchAndUpdateUsage f net (local_storage w))))
        else (Normal tt, w, [])
    end.
Proof.
  destruct ev as [| | | name]; cbn [dispatch].
  - apply initializeMonitoring_run.
  - apply initializeMonitoring_run.
  - reflexivity.
  - unfold onAlarm. destruct f.
    + apply lift_cycle.
    + destruct (String.eqb name ALARM_NAME); [apply lift_cycle | reflexivity].
Qed.

(** X10. [initializeMonitoring] returns normally and leaves exactly one
    alarm named [usagePoll], with a period of 5 minutes, whatever alarm of
    that name existed before; the other alarms are untouched. It clears, then
    creates, then runs one cycle at once. Running it again (on install and
    again on startup, say) leaves the same alarms. *)
Theorem initializeMonitoring_sets_alarm (f : SourceFile) (net net' : Net)
    (w : Worker) :
  (initializeMonitoring f net w).1.1 = Normal tt /\
  alarms (initializeMonitoring f net w).1.2 !! "usagePoll" = Some 5%Z /\
  (forall name, name <> "usagePoll" ->
     alarms (initializeMonitoring f net w).1.2 !! name = alarms w !! name) /\
  (initializeMonitoring f net w).2 =
    AlarmsClear "usagePoll" :: AlarmsCreate "usagePoll" 5 ::
    List.map InCycle (events (fetchAndUpdateUsage f net (local_storage w))) /\
  local_storage (initializeMonitoring f net w).1.2 =
    storage_after (fetchAndUpdateUsage f net (local_storage w)) /\
  alarms (initializeMonitoring f net' (initializeMonitoring f net w).1.2).1.2 =
    alarms (initializeMonitoring f net w).1.2.
Proof.
  rewrite !initializeMonitoring_run. cbn [fst snd alarms local_storage].
  fold ALARM_NAME POLL_INTERVAL_MINUTES.
  split; [reflexivity |]. split; [apply lookup_insert_eq |]. split.
  - intros name Hne.
    rewrite lookup_insert_ne by (intros Heq; apply Hne; symmetry; exact Heq).
    rewrite lookup_delete_ne by (intros Heq; apply Hne; symmetry; exact Heq).
    reflexivity.
  - split; [reflexivity |]. split; [reflexivity |].
    rewrite !insert_delete_eq. apply insert_insert_eq.
Qed.

(** X11. The alarm listeners of the two versions differ. In
    src/unnamed/part_000 an alarm whose name is not [usagePoll] does nothing:
    no call, no change. In src/background.js an alarm of any name runs a
    cycle, and so sets the toolbar icon. *)
Theorem onAlarm_name_filter (net : Net) (w : Worker) (name : string) :
  (name <> "usagePoll" ->
   dispatch part_000 (AlarmFired name) net w = (Normal tt, w, [])) /\
  (dispatch background_js (AlarmFired name) net w).2 =
    List.map InCycle (events (fetchAndUpdateUsage background_js net (local_storage w))) /\
  (exists icon,
     In (InCycle (SetIcon icon)) (dispatch background_js (AlarmFired name) net w).2).
Proof.
  rewrite !dispatch_cases. split; [| split].
  - intros Hne. apply String.eqb_neq in Hne. unfold ALARM_NAME. rewrite Hne.
    reflexivity.
  - reflexivity.
  - cbn [snd].
    assert (Hicon : exists icon,
              In (SetIcon icon)
                 (actions (events (fetchAndUpdateUsage background_js net
                                     (local_storage w))))).
    { rewrite cycle_actions. unfold usage_events.
      destruct (truthy _); [| eexists; left; reflexivity].
      destruct (coercible _); [| eexists; left; reflexivity].
      change (actions (?e :: ?l)) with (actions l).
      destruct (net _) as [m | s [data | m]]; try (eexists; left; reflexivity).
      - destruct (ok _); [| eexists; left; reflexivity].
        rewrite actions_badge_events. unfold badge_events.
        repeat (match goal with |- context [if ?b then _ else _] => destruct b end);
          eexists; left; reflexivity.
      - destruct (ok _); eexists; left; reflexivity. }
    destruct Hicon as [icon Hin]. exists icon.
    apply List.in_map. apply List.filter_In in Hin. tauto.
Qed.

(** X12. No listener throws: whatever event arrives and whatever the network
    answers, the listener returns normally (the promises that the listeners do
    not await are never rejected). *)
Theorem dispatch_never_throws (f : SourceFile) (ev : BrowserEvent) (net : Net)
    (w : Worker) :
  (dispatch f ev net w).1.1 = Normal tt.
Proof.
  rewrite dispatch_cases. destruct ev as [| | | name]; try reflexivity.
  destruct (match f with
            | background_js => true
            | part_000 => String.eqb name ALARM_NAME
            end); reflexivity.
Qed.

(** ** What holds over every run of the worker *)

Lemma run_cons (f : SourceFile) (ev : BrowserEvent) (net : Net)
    (rest : list (BrowserEvent * Net)) (w : Worker) :
  run f ((ev, net) :: rest) w =
    ((run f rest (dispatch f ev net w).1.2).1,
     (dispatch f ev net w).2 ++ (run f rest (dispatch f ev net w).1.2).2).
Proof. reflexivity. Qed.

(** The URLs a cycle fetches. *)
Lemma cycle_fetch_urls (f : SourceFile) (net : Net) (st : gmap string Value)
    (url : string) (o : FetchOutcome) :
  In (Fetch url o) (events (fetchAndUpdateUsage f net st)) ->
  url = bootstrap_url \/ url = usage_url (resolved_orgId net st).
Proof.
  intros Hin.
  assert (Hf : In (Fetch url o)
                 (List.filter is_fetch (events (fetchAndUpdateUsage f net st))))
    by (apply List.filter_In; split; [exact Hin | reflexivity]).
  rewrite fetchAndUpdateUsage_eq in Hf. unfold events at 1 in Hf. cbn [snd] in Hf.
  rewrite List.filter_app, getOrganizationId_fetches, usage_events_fetches in Hf.
  apply in_app_or in Hf. destruct Hf as [Hf | Hf].
  - destruct (truthy (cached_orgId st)); [destruct Hf |].
    destruct Hf as [Hf | []]. injection Hf as <- _. left. reflexivity.
  - destruct (truthy (resolved_orgId net st) && coercible (resolved_orgId net st));
      [| destruct Hf].
    destruct Hf as [Hf | []]. injection Hf as <- _. right. reflexivity.
Qed.

Lemma cycle_calls_claude (f : SourceFile) (net : Net) (st : gmap string Value) :
  Forall (fun c => match fetched_url c with
                   | Some url => String.prefix "https://claude.ai/api/" url = true
                   | None => True
                   end)
         (List.map InCycle (events (fetchAndUpdateUsage f net st))).
Proof.
  apply List.Forall_forall. intros c Hc.
  apply List.in_map_iff in Hc. destruct Hc as (e & <- & Hin).
  destruct e; try exact I. cbn [fetched_url].
  destruct (cycle_fetch_urls f net st _ _ Hin) as [-> | ->]; reflexivity.
Qed.

(** X13. Over every run of the worker (any sequence of installs, startups,
    clicks and alarms, on any storage and any network), every URL fetched
    starts with [https://claude.ai/api/]: the worker sends requests to that
    host only. *)
Theorem run_fetches_claude_only (f : SourceFile)
    (evs : list (BrowserEvent * Net)) (w : Worker) :
  Forall (fun c => match fetched_url c with
                   | Some url => String.prefix "https://claude.ai/api/" url = true
                   | None => True
                   end)
         (run f evs w).2.
Proof.
  revert w. induction evs as [| [ev net] rest IH]; intros w.
  - constructor.
  - rewrite run_cons. cbn [snd]. apply List.Forall_app. split; [| apply IH].
    rewrite dispatch_cases. destruct ev as [| | | name]; cbn [snd].
    + repeat constructor. apply cycle_calls_claude.
    + repeat constructor. apply cycle_calls_claude.
    + repeat constructor.
    + destruct (match f with
                | background_js => true
                | part_000 => String.eqb name ALARM_NAME
                end); cbn [snd]; [apply cycle_calls_claude | constructor].
Qed.

(** What a cycle does to the storage: nothing, or one truthy identifier put
    where there was none. *)
Lemma cycle_storage (f : SourceFile) (net : Net) (st : gmap string Value) :
  storage_after (fetchAndUpdateUsage f net st) = st \/
  (truthy (cached_orgId st) = false /\
   exists v, truthy v = true /\
             storage_after (fetchAndUpdateUsage f net st) = <["orgId" := v]> st).
Proof.
  rewrite fetchAndUpdateUsage_eq. unfold storage_after at 1 3. cbn [fst snd].
  destruct (truthy (cached_orgId st)) eqn:Hc.
  - rewrite getOrganizationId_hit by assumption. left. reflexivity.
  - rewrite getOrganizationId_miss by assumption. unfold bootstrap_result.
    destruct (net bootstrap_url) as [m | s [data | m]]; try (left; reflexivity).
    + destruct (ok (mkResponse s (JsonBody data))); [| left; reflexivity].
      destruct (truthy (bootstrap_orgId data)) eqn:Hid; [| left; reflexivity].
      right. split; [reflexivity |]. exists (bootstrap_orgId data).
      split; [exact Hid | reflexivity].
    + destruct (ok (mkResponse s (BadBody m))); left; reflexivity.
Qed.

(** The storage after a listener: that of the worker, or that of its cycle. *)
Lemma dispatch_storage (f : SourceFile) (ev : BrowserEvent) (net : Net) (w : Worker) :
  local_storage (dispatch f ev net w).1.2 = local_storage w \/
  local_storage (dispatch f ev net w).1.2 =
    storage_after (fetchAndUpdateUsage f net (local_storage w)).
Proof.
  rewrite dispatch_cases. destruct ev as [| | | name]; cbn; auto.
  destruct (match f with
            | background_js => true
            | part_000 => String.eqb name ALARM_NAME
            end); cbn; auto.
Qed.

Lemma dispatch_storage_step (f : SourceFile) (ev : BrowserEvent) (net : Net)
    (w : Worker) :
  local_storage (dispatch f ev net w).1.2 = local_storage w \/
  (truthy (cached_orgId (local_storage w)) = false /\
   exists v, truthy v = true /\
             local_storage (dispatch f ev net w).1.2 =
               <["orgId" := v]> (local_storage w)).
Proof.
  destruct (dispatch_storage f ev net w) as [-> | ->]; [left; reflexivity |].
  apply cycle_storage.
Qed.

(** The storage writes of a cycle: a truthy value, under [orgId]. *)
Lemma cycle_writes (f : SourceFile) (net : Net) (st : gmap string Value) :
  Forall (fun c => match c with
                   | InCycle (StorageSet k v) => k = "orgId" /\ truthy v = true
                   | _ => True
                   end)
         (List.map InCycle (events (fetchAndUpdateUsage f net st))).
Proof.
  apply List.Forall_forall. intros c Hc.
  apply List.in_map_iff in Hc. destruct Hc as (e & <- & Hin).
  destruct e as [| k v | | | | | |]; try exact I.
  assert (Hset : In (StorageSet k v)
                   (List.filter is_storage_set
                      (events (fetchAndUpdateUsage f net st))))
    by (apply List.filter_In; split; [exact Hin | reflexivity]).
  rewrite fetchAndUpdateUsage_eq in Hset. unfold events at 1 in Hset.
  cbn [snd] in Hset.
  rewrite List.filter_app, (proj1 (usage_events_quiet f net _)), List.app_nil_r
    in Hset.
  destruct (truthy (cached_orgId st)) eqn:Hc.
  - rewrite getOrganizationId_hit in Hset by assumption. destruct Hset.
  - rewrite getOrganizationId_miss in Hset by assumption.
    unfold bootstrap_result in Hset.
    destruct (net bootstrap_url) as [m | s [data | m]]; try destruct Hset.
    + destruct (ok (mkResponse s (JsonBody data))); [| destruct Hset].
      destruct (truthy (bootstrap_orgId data)) eqn:Hid; [| destruct Hset].
      destruct Hset as [Heq | []]. injection Heq as <- <-.
      split; [reflexivity | exact Hid].
    + destruct (ok (mkResponse s (BadBody m))); destruct Hset.
Qed.

(** X14. Over every run of the worker, the storage is written in one way
    only: every write puts a truthy value under the key [orgId]. So every
    other key keeps its value, and a cache that holds no identifier or a
    truthy one still does at the end. *)
Theorem run_storage_frame (f : SourceFile) (evs : list (BrowserEvent * Net))
    (w : Worker) :
  (forall k, k <> "orgId" ->
     local_storage (run f evs w).1 !! k = local_storage w !! k) /\
  Forall (fun c => match c with
                   | InCycle (StorageSet k v) => k = "orgId" /\ truthy v = true
                   | _ => True
                   end)
         (run f evs w).2 /\
  (cache_ok (local_storage w) -> cache_ok (local_storage (run f evs w).1)).
Proof.
  revert w. induction evs as [| [ev net] rest IH]; intros w.
  - repeat split; auto.
  - rewrite run_cons. cbn [fst snd].
    destruct (IH (dispatch f ev net w).1.2) as (IHk & IHw & IHok).
    assert (Hcalls : Forall (fun c => match c with
                                      | InCycle (StorageSet k v) =>
                                          k = "orgId" /\ truthy v = true
                                      | _ => True
                                      end)
                            (dispatch f ev net w).2).
    { rewrite dispatch_cases. destruct ev as [| | | name]; cbn [snd].
      - repeat constructor. apply cycle_writes.
      - repeat constructor. apply cycle_writes.
      - repeat constructor.
      - destruct (match f with
                  | background_js => true
                  | part_000 => String.eqb name ALARM_NAME
                  end); cbn [snd]; [apply cycle_writes | constructor]. }
    split; [| split].
    + intros k Hk. rewrite IHk by exact Hk.
      destruct (dispatch_storage_step f ev net w)
        as [-> | (_ & v & _ & ->)]; [reflexivity |].
      apply lookup_insert_ne. intros Heq. apply Hk. symmetry. exact Heq.
    + apply List.Forall_app. split; [exact Hcalls | exact IHw].
    + intros Hok. apply IHok.
      destruct (dispatch_storage_step f ev net w)
        as [-> | (_ & v & Hv & ->)]; [exact Hok |].
      right. rewrite cached_orgId_insert. exact Hv.
Qed.

Lemma dispatch_alarms (f : SourceFile) (ev : BrowserEvent) (net : Net) (w : Worker) :
  alarms (dispatch f ev net w).1.2 =
    if is_init (ev, net)
    then <[ALARM_NAME := POLL_INTERVAL_MINUTES]> (delete ALARM_NAME (alarms w))
    else alarms w.
Proof.
  rewrite dispatch_cases. destruct ev as [| | | name]; try reflexivity.
  destruct (match f with
            | background_js => true
            | part_000 => String.eqb name ALARM_NAME
            end); reflexivity.
Qed.

(** X15. Over every run of the worker, alarms of other names are never
    created, changed or cleared; the alarm [usagePoll] has a period of 5
    minutes as soon as the run holds an install or a startup, and is as it was
    otherwise (alarms and clicks never touch it). *)
Theorem run_alarms (f : SourceFile) (evs : list (BrowserEvent * Net)) (w : Worker) :
  (forall name, name <> "usagePoll" ->
     alarms (run f evs w).1 !! name = alarms w !! name) /\
  alarms (run f evs w).1 !! "usagePoll" =
    if existsb is_init evs then Some 5%Z else alarms w !! "usagePoll".
Proof.
  revert w. induction evs as [| [ev net] rest IH]; intros w.
  - split; reflexivity.
  - rewrite run_cons. cbn [fst existsb].
    destruct (IH (dispatch f ev net w).1.2) as [IHother IHpoll].
    rewrite dispatch_alarms in IHother, IHpoll.
    destruct (is_init (ev, net)); cbn [orb].
    + split.
      * intros name Hne. rewrite IHother by exact Hne.
        rewrite lookup_insert_ne by (intros Heq; apply Hne; symmetry; exact Heq).
        apply lookup_delete_ne. intros Heq. apply Hne. symmetry. exact Heq.
      * rewrite IHpoll. unfold ALARM_NAME, POLL_INTERVAL_MINUTES.
        rewrite lookup_insert_eq. destruct (existsb is_init rest); reflexivity.
    + split; [exact IHother | exact IHpoll].
Qed.

Lemma omap_opened_tab_cycle (ev : list Event) :
  omap opened_tab (List.map InCycle ev) = [].
Proof. induction ev as [| e rest IH]; [reflexivity | exact IH]. Qed.

(** X16. Over every run of the worker, the tabs opened are exactly one per
    click on the toolbar icon, in order, each at the usage page
    [https://claude.ai/settings/usage]: installs, startups and alarms open
    none. *)
Theorem run_opens_tab_per_click (f : SourceFile)
    (evs : list (BrowserEvent * Net)) (w : Worker) :
  omap opened_tab (run f evs w).2 =
    List.map (fun _ => "https://claude.ai/settings/usage") (List.filter is_click evs).
Proof.
  revert w. induction evs as [| [ev net] rest IH]; intros w.
  - reflexivity.
  - rewrite run_cons. cbn [snd]. rewrite omap_app, IH, dispatch_cases.
    destruct ev as [| | | name]; cbn [snd List.filter is_click fst List.map].
    + cbn [omap list_omap opened_tab]. rewrite omap_opened_tab_cycle. reflexivity.
    + cbn [omap list_omap opened_tab]. rewrite omap_opened_tab_cycle. reflexivity.
    + reflexivity.
    + destruct (match f with
                | background_js => true
                | part_000 => String.eqb name ALARM_NAME
                end); cbn [snd];
        [rewrite omap_opened_tab_cycle |]; reflexivity.
Qed.

End DriverProperties.

(** * Edge cases of the rendering *)

Section RenderingProperties.

Context `{Platform}.

(** X17. When the [five_hour] entry is there but its [utilization] is absent
    or falsy ([0], [null], the empty string) and its [resets_at] is absent or
    falsy, [updateBadge] renders the percentage [0] at the three sizes, a badge
    of [0] followed by the percent sign, and a tooltip that ends with
    [Resets at Unknown]; no time is formatted. *)
Theorem updateBadge_falsy_fields (f : SourceFile) (data : Value)
    (st : gmap string Value) :
  nullish data = false ->
  truthy (read data (Name "five_hour")) = true ->
  truthy (read (read data (Name "five_hour")) (Name "utilization")) = false ->
  truthy (read (read data (Name "five_hour")) (Name "resets_at")) = false ->
  updateBadge f data st =
    (Normal tt, st,
     [SetIcon (IconImageData (icon_pixels f (VNum (numZ 0)) 16)
                 (icon_pixels f (VNum (numZ 0)) 32)
                 (icon_pixels f (VNum (numZ 0)) 48));
      SetBadgeText (ToString (VNum (numZ 0)) +:+ "%");
      SetBadgeTextColor "#D97706";
      SetBadgeBackgroundColor [0; 0; 0; 0]%Z;
      SetTitle ("Claude Usage Monitor" +:+ nl +:+ ToString (VNum (numZ 0)) +:+
                "% used" +:+ nl +:+ "Resets at Unknown")]).
Proof.
  intros Hn Hf Hu Hr.
  assert (Hp : usage_percentage (read data (Name "five_hour")) = VNum (numZ 0))
    by (unfold usage_percentage, js_or; rewrite Hu; reflexivity).
  rewrite updateBadge_success;
    [| assumption | assumption | rewrite Hp; reflexivity | rewrite Hr; reflexivity].
  unfold success_state. rewrite Hp, Hr. reflexivity.
Qed.

Lemma frameHeight_div (size : Z) : frameHeight size = (size * 4 / 10)%Z.
Proof. reflexivity. Qed.

(** X18. For every size of at least 10 pixels (16, 32 and 48 among them) the
    thermometer frame lies inside the canvas and in its top half, which leaves
    the bottom half to the badge text: it starts [padding] pixels in, ends
    [padding] pixels before the right edge, and its bottom edge is at or above
    the middle. The bar sits inside the border of the frame. *)
Theorem frame_in_top_half (size : Z) :
  (10 <= size)%Z ->
  (0 < frameX size)%Z /\ (0 < frameY size)%Z /\
  (0 < frameWidth size)%Z /\ (0 < frameHeight size)%Z /\
  (frameX size + frameWidth size = size - padding size)%Z /\
  (2 * (frameY size + frameHeight size) <= size)%Z /\
  (barX size + barMaxWidth size = frameX size + frameWidth size - borderWidth size)%Z /\
  (barY size + barHeight size = frameY size + frameHeight size - borderWidth size)%Z.
Proof.
  intros Hsize.
  unfold barX, barY, barMaxWidth, barHeight, frameX, frameY, frameWidth.
  rewrite !frameHeight_div. unfold padding, borderWidth.
  destruct (Z.leb_spec size 16); repeat split; try lia;
    try (apply Z.div_str_pos; lia);
    try (pose proof (Z.mul_div_le (size * 4) 10 ltac:(lia)); lia).
Qed.

(** X19. In the circular variant the ring (the radius plus half the line
    width) fits in the canvas, whose half-width is [size / 2], exactly up to a
    size of 32: the line is at least 2 pixels wide, and above 32 pixels (at 48,
    the largest size rendered) the outer edge of the ring passes the edge of
    the canvas. *)
Theorem ring_fits_up_to_32 (size : Z) :
  exists r lw : Q,
    radius size = Fin r /\
    lineWidth size = Fin lw /\
    (2 <= lw)%Q /\
    ((size <= 32)%Z -> (r + lw / 2 <= inject_Z size / 2)%Q) /\
    ((32 < size)%Z -> (inject_Z size / 2 < r + lw / 2)%Q).
Proof.
  unfold radius, lineWidth. cbn [num_sub num_div Math_max numZ].
  eexists _, _. split; [reflexivity |]. split; [reflexivity |].
  set (s := inject_Z size).
  assert (H8 : (s / inject_Z 8 == s * (1 # 8))%Q) by reflexivity.
  assert (H2 : forall x : Q, (x / 2 == x * (1 # 2))%Q) by (intros x; reflexivity).
  assert (H2' : (s / inject_Z 2 == s * (1 # 2))%Q) by reflexivity.
  split; [| split].
  - destruct (Qlt_le_dec (inject_Z 2) (s / inject_Z 8)) as [Hlt | Hle].
    + apply Qlt_le_weak. exact Hlt.
    + discriminate.
  - intros Hsmall.
    assert (Hs : (s <= 32)%Q) by (subst s; rewrite (Zle_Qle size 32) in Hsmall; exact Hsmall).
    destruct (Qlt_le_dec (inject_Z 2) (s / inject_Z 8)) as [Hlt | Hle];
      rewrite ?H2, ?H2', ?H8 in *; unfold inject_Z in *; lra.
  - intros Hbig.
    assert (Hs : (32 < s)%Q) by (subst s; rewrite (Zlt_Qlt 32 size) in Hbig; exact Hbig).
    destruct (Qlt_le_dec (inject_Z 2) (s / inject_Z 8)) as [Hlt | Hle];
      rewrite ?H2, ?H2', ?H8 in *; unfold inject_Z in *; lra.
Qed.

End RenderingProperties.

(** * The further properties at concrete inputs *)

(** X5 when the bootstrap endpoint answers 503 (the tooltip says
    [No org ID], not the status), and when the usage endpoint answers 403. *)
Lemma cycle_error_message_witness :
  truthy (resolved_orgId (H := example_platform)
            (example_net (Responded 503 (BadBody "")) (Rejected "")) ∅) = false /\
  In (SetTitle ("Make sure you are logged in to Claude.ai!" +:+ nl +:+
                "Error: No org ID"))
     (actions (events (fetchAndUpdateUsage (H := example_platform) background_js
                         (example_net (Responded 503 (BadBody "")) (Rejected "")) ∅))) /\
  In (SetTitle ("Make sure you are logged in to Claude.ai!" +:+ nl +:+
                "Error: HTTP 403"))
     (actions (events (fetchAndUpdateUsage (H := example_platform) background_js
                         (example_net (Rejected "") (Responded 403 (JsonBody VNull)))
                         cached_storage))).
Proof.
  assert (Hnone : truthy (resolved_orgId (H := example_platform)
                            (example_net (Responded 503 (BadBody "")) (Rejected ""))
                            ∅) = false) by reflexivity.
  assert (Hid : truthy (resolved_orgId (H := example_platform)
                          (example_net (Rejected "") (Responded 403 (JsonBody VNull)))
                          cached_storage) = true) by reflexivity.
  assert (Hnet : example_net (Rejected "") (Responded 403 (JsonBody VNull))
                   (usage_url (H := example_platform)
                      (resolved_orgId (H := example_platform)
                         (example_net (Rejected "") (Responded 403 (JsonBody VNull)))
                         cached_storage)) =
                 Responded 403 (JsonBody VNull)) by reflexivity.
  assert (Hok : ok (mkResponse 403 (JsonBody VNull)) = false) by reflexivity.
  split; [exact Hnone |]. split.
  - rewrite (proj1 (cycle_error_message (H := example_platform) background_js
                      (example_net (Responded 503 (BadBody "")) (Rejected "")) ∅)
               Hnone).
    right. right. left. reflexivity.
  - rewrite (proj1 (proj2 (proj2 (proj2 (proj2
               (cycle_error_message (H := example_platform) background_js
                  (example_net (Rejected "") (Responded 403 (JsonBody VNull)))
                  cached_storage))) Hid eq_refl))
               403%Z (JsonBody VNull) Hnet Hok).
    right. right. left. reflexivity.
Defined.

(** X7 at 45 percent and size 16: the bar is 5.4 pixels wide, inside the
    12 pixels of the frame. *)
Lemma bar_within_frame_witness :
  ToNumber (H := example_platform) (VNum (numZ 45)) = Fin 45 /\
  (0 <= 45)%Q /\ (45 <= 100)%Q /\ (1 <= barMaxWidth 16)%Z /\
  exists w : Q,
    barWidth (H := example_platform) (VNum (numZ 45)) 16 = Fin w /\
    (1 <= w)%Q /\ (w <= inject_Z (barMaxWidth 16))%Q.
Proof.
  assert (H0 : (0 <= 45)%Q) by discriminate.
  assert (H100 : (45 <= 100)%Q) by discriminate.
  assert (Hmax : (1 <= barMaxWidth 16)%Z) by discriminate.
  destruct (bar_within_frame (H := example_platform) (VNum (numZ 45)) 45 16
              eq_refl H0 H100 Hmax) as (w & Hw & H1 & Hb & _).
  split; [reflexivity |]. split; [exact H0 |]. split; [exact H100 |].
  split; [exact Hmax |]. exists w. split; [exact Hw |]. split; assumption.
Defined.

(** X8 at 5 and 8 percent and size 16: both bars are 1 pixel wide. *)
Lemma barWidth_monotone_witness :
  ToNumber (H := example_platform) (VNum (numZ 5)) = Fin 5 /\
  ToNumber (H := example_platform) (VNum (numZ 8)) = Fin 8 /\
  (0 <= barMaxWidth 16)%Z /\ (5 <= 8)%Q /\
  (inject_Z (barMaxWidth 16) * 8 <= 100)%Q /\
  barWidth (H := example_platform) (VNum (numZ 5)) 16 = Fin 1 /\
  barWidth (H := example_platform) (VNum (numZ 8)) 16 = Fin 1.
Proof.
  assert (Hmax : (0 <= barMaxWidth 16)%Z) by discriminate.
  assert (Hle : (5 <= 8)%Q) by discriminate.
  assert (Hsmall : (inject_Z (barMaxWidth 16) * 8 <= 100)%Q) by discriminate.
  destruct (barWidth_monotone (H := example_platform) (VNum (numZ 5)) (VNum (numZ 8))
              5 8 16 eq_refl eq_refl Hmax Hle) as (w1 & w2 & H1 & H2 & _ & Hfloor).
  destruct (Hfloor Hsmall) as [-> ->].
  split; [reflexivity |]. split; [reflexivity |]. split; [exact Hmax |].
  split; [exact Hle |]. split; [exact Hsmall |]. split; assumption.
Defined.

(** X9 at 25 percent: a quarter turn. *)
Lemma arc_sweep_witness :
  ToNumber (H := example_platform) (VNum (numZ 25)) = Fin 25 /\
  exists a0 a turn : Q,
    startAngle = Fin a0 /\
    endAngle (H := example_platform) (VNum (numZ 25)) = Fin a /\
    fullCircle = Fin turn /\
    (a - a0 == 25 / 100 * turn)%Q.
Proof.
  destruct (arc_sweep (H := example_platform) (VNum (numZ 25)) 25 eq_refl)
    as (a0 & a & turn & H0 & Ha & Ht & Hsweep & _).
  split; [reflexivity |]. exists a0, a, turn.
  split; [exact H0 |]. split; [exact Ha |]. split; [exact Ht | exact Hsweep].
Defined.

(** X17 at a document whose [five_hour] holds a [utilization] of 0 and no
    [resets_at]. *)
Lemma updateBadge_falsy_fields_witness :
  nullish (VObj [("five_hour", VObj [("utilization", VNum (numZ 0))])]) = false /\
  truthy (read (VObj [("five_hour", VObj [("utilization", VNum (numZ 0))])])
            (Name "five_hour")) = true /\
  In (SetTitle ("Claude Usage Monitor" +:+ nl +:+ "0% used" +:+ nl +:+
                "Resets at Unknown"))
     (events (updateBadge (H := example_platform) background_js
                (VObj [("five_hour", VObj [("utilization", VNum (numZ 0))])]) ∅)).
Proof.
  split; [reflexivity |]. split; [reflexivity |].
  rewrite (updateBadge_falsy_fields (H := example_platform) background_js
             (VObj [("five_hour", VObj [("utilization", VNum (numZ 0))])]) ∅
             eq_refl eq_refl eq_refl eq_refl).
  right. right. right. right. left. reflexivity.
Defined.

(** X18 at size 16: the frame spans x from 1 to 15 and y from 1 to 7. *)
Lemma frame_in_top_half_witness :
  (10 <= 16)%Z /\
  (frameX 16 + frameWidth 16 = 15)%Z /\
  (2 * (frameY 16 + frameHeight 16) <= 16)%Z.
Proof.
  assert (Hsize : (10 <= 16)%Z) by discriminate.
  destruct (frame_in_top_half 16 Hsize) as (_ & _ & _ & _ & Hright & Hhalf & _).
  split; [exact Hsize |]. split; [exact Hright | exact Hhalf].
Defined.

(** * Values that cannot be converted to a primitive, at concrete inputs *)

(** [generateIcon] throws at [percentage < 50], before it draws. *)
Example generateIcon_unconvertible_percentage :
  generateIcon (H := example_platform) background_js toString_keyed 16 ∅ =
    (Throw cannot_convert, ∅, []) /\
  generateIcon (H := example_platform) part_000 toString_keyed 48 ∅ =
    (Throw cannot_convert, ∅, []).
Proof. split; reflexivity. Qed.

(** With such a [resets_at], [updateBadge] throws after four calls, and the
    cycle makes seven calls to [chrome.action]: these four, then the three of
    the error state. *)
Example cycle_unconvertible_resets_at :
  completion
    (updateBadge (H := example_platform) background_js
       (VObj [("five_hour", VObj [("resets_at", toString_keyed)])]) ∅) =
    Throw cannot_convert /\
  length
    (events (updateBadge (H := example_platform) background_js
               (VObj [("five_hour", VObj [("resets_at", toString_keyed)])]) ∅)) = 4 /\
  List.map (fun e => match e with
                     | SetIcon (IconPath _) => "error icon"
                     | SetIcon (IconImageData _ _ _) => "usage icon"
                     | SetBadgeText text => text
                     | SetTitle _ => "title"
                     | _ => "colour"
                     end)
    (actions
       (events (fetchAndUpdateUsage (H := example_platform) background_js
                  (example_net (Rejected "")
                     (Responded 200
                        (JsonBody
                           (VObj [("five_hour",
                                   VObj [("resets_at", toString_keyed)])]))))
                  cached_storage))) =
    ["usage icon"; "0%"; "colour"; "colour"; "error icon"; ""; "title"].
Proof. repeat split. Qed.

(** With such an identifier in the cache, the cycle throws at the URL
    template: it fetches nothing and shows the message of the TypeError. *)
Example cycle_unconvertible_identifier :
  List.filter is_fetch
    (events (fetchAndUpdateUsage (H := example_platform) background_js healthy_net
               {["orgId" := toString_keyed]})) = [] /\
  actions
    (events (fetchAndUpdateUsage (H := example_platform) background_js healthy_net
               {["orgId" := toString_keyed]})) =
    error_state (H := example_platform) background_js cannot_convert.
Proof. split; reflexivity. Qed.
